(** * Verification of the JLCPCB fabrication export ([fabrication.py])

    Shallow embedding of the class [Fabrication]: rotation correction
    ([fix_rotation], [rotate]), the Gerber plot plan ([generate_geber]),
    placement positions ([get_position]) and the CPL export
    ([generate_cpl]).

    Angles are Python floats in the source.  The rotation code is embedded
    twice.  Section [Rotation] runs it over exact rationals [Q], with
    Python's [%] as the floor modulo [x - m * floor (x / m)]; it serves the
    facts about which rule applies and about small whole angles, which
    binary64 represents exactly (see [rotate_whole_degrees]).  Module
    [Float64] runs it over IEEE 754 binary64, every float operation rounded
    to nearest-even and [%] as CPython's [float_rem]; it serves the facts
    about the range and the arithmetic of the computed angle. *)

From Stdlib Require Import ZArith QArith Qround Qpower Ascii String List Bool Lia.
Import ListNotations.
Open Scope Z_scope.

(* ------------------------------------------------------------------ *)
(** ** KiCad layer identifiers (pcbnew, [layer_ids.h] of KiCad 6 - 8) *)

Definition F_Cu : Z := 0.
Definition B_Cu : Z := 31.
Definition B_Paste : Z := 34.
Definition F_Paste : Z := 35.
Definition B_SilkS : Z := 36.
Definition F_SilkS : Z := 37.
Definition B_Mask : Z := 38.
Definition F_Mask : Z := 39.
Definition Cmts_User : Z := 41.
Definition Edge_Cuts : Z := 44.

(* ------------------------------------------------------------------ *)
(** ** Python's [%] on floats *)

(** [x % m] for a positive float [m]: the result has the sign of [m]. *)
Definition pymod (x m : Q) : Q := x - m * inject_Z (Qfloor (x / m)).

(* ------------------------------------------------------------------ *)
(** ** Footprints, as read through the pcbnew API *)

(** [GetOrientation()]: an [EDA_ANGLE] (KiCad >= 6.99, read with
    [AsDegrees()]) or a plain number in tenths of a degree (older
    versions). *)
Inductive orientation :=
| EdaAngle (deg : Q)
| Tenths (t : Q).

Record footprint := mkFootprint {
  fp_reference : string;
  fp_value : string;          (** [GetValue()] *)
  fp_package : string;        (** [GetFPID().GetLibItemName()] *)
  fp_orientation : orientation;
  fp_layer : Z;               (** [GetLayer()]: 0 is the top copper layer *)
  fp_position : Z * Z;        (** [GetPosition()], internal units (nm) *)
  fp_bbox_center : Z * Z;     (** [GetBoundingBox(False, False).GetCenter()] *)
  fp_smd : bool;              (** surface-mount attribute *)
  fp_exclude_from_pos : bool  (** "exclude from position files" attribute *)
}.

(** A correction rule [(regex, correction)] of [self.corrections]. *)
Definition correction := (string * Z)%type.

(** Exceptions raised by the modelled code. *)
Inductive exc :=
| ReError.   (** [re.error]: the pattern does not compile *)

Section Rotation.

(** [re.search(pattern, text)]: [None] when the pattern does not compile
    ([re.error] is raised), otherwise whether the pattern matches. *)
Variable re_search : string -> string -> option bool.

(** The orientation in degrees, as read at the top of [fix_rotation]. *)
Definition orientation_degrees (o : orientation) : Q :=
  match o with
  | EdaAngle d => d
  | Tenths t => t / 10
  end.

(** [Fabrication.rotate] *)
Definition rotate (fp : footprint) (rotation : Q) (corr : Z) : Q :=
  if fp_layer fp =? 0
  then pymod (rotation + inject_Z corr) 360
  else pymod (rotation - inject_Z corr) 360.

(** One [for regex, correction in self.corrections] loop of
    [fix_rotation]: the first rule whose pattern matches [text].
    [inl ReError] when a pattern reached by the loop does not compile. *)
Fixpoint first_match (rules : list correction) (text : string)
  : exc + option Z :=
  match rules with
  | [] => inr None
  | (regex, corr) :: rest =>
      match re_search regex text with
      | None => inl ReError
      | Some true => inr (Some corr)
      | Some false => first_match rest text
      end
  end.

(** The rotation after the bottom-side mirroring of [fix_rotation]. *)
Definition base_rotation (fp : footprint) : Q :=
  let rotation := orientation_degrees (fp_orientation fp) in
  if negb (fp_layer fp =? 0) then pymod (180 - rotation) 360 else rotation.

(** [Fabrication.fix_rotation] *)
Definition fix_rotation (rules : list correction) (fp : footprint)
  : exc + Q :=
  let rotation := base_rotation fp in
  match first_match rules (fp_value fp) with
  | inl e => inl e
  | inr (Some corr) => inr (rotate fp rotation corr)
  | inr None =>
      match first_match rules (fp_package fp) with
      | inl e => inl e
      | inr (Some corr) => inr (rotate fp rotation corr)
      | inr None => inr rotation
      end
  end.

End Rotation.

(* ------------------------------------------------------------------ *)
(** ** Python floats: IEEE 754 binary64 *)

(** A float is kept as the rational number it denotes.  Rounding is to
    nearest, ties to an even significand, with subnormals (least exponent
    [-1074]).  Overflow to infinity and the sign of zero are not modelled:
    the angles here stay far below [2^1024]. *)
Section Binary64.
Local Open Scope Q_scope.

Definition Qltb (x y : Q) : bool := negb (Qle_bool y x).

Definition pow2 (e : Z) : Q := Qpower 2 e.
(** The whole number nearest to [y], ties to the even one. *)
Definition round_half_even (y : Q) : Z :=
  let f := Qfloor y in
  match Qcompare (y - inject_Z f) (1 # 2) with
  | Lt => f
  | Gt => (f + 1)%Z
  | Eq => if Z.even f then f else (f + 1)%Z
  end.
(** The exponent [e] of the binade of [a > 0]: [2^52 <= a / 2^e < 2^53]. *)
Definition binade (a : Q) : Z :=
  let e0 := (Z.log2 (Qnum a) - Z.log2 (Zpos (Qden a)) - 53)%Z in
  if Qle_bool (pow2 52) (a / pow2 (e0 + 1)) then (e0 + 1)%Z else e0.
(** The binary64 value nearest to [x], ties to an even significand. *)
Definition round64 (x : Q) : Q :=
  let x := Qred x in
  if Qeq_bool x 0 then 0 else
  let a := if Qle_bool 0 x then x else - x in
  let e := Z.max (binade a) (-1074) in
  let m := inject_Z (round_half_even (a / pow2 e)) * pow2 e in
  if Qle_bool 0 x then m else - m.
(** [x + y], [x - y], [x / y] on floats, and [float(n)] for a Python int. *)
Definition fadd (x y : Q) : Q := round64 (x + y).
Definition fsub (x y : Q) : Q := round64 (x - y).
Definition fdiv (x y : Q) : Q := round64 (x / y).
Definition float_of_int (n : Z) : Q := round64 (inject_Z n).
(** C's [fmod]: [x - y * trunc (x / y)], always exact. *)
Definition Qtrunc (q : Q) : Z :=
  if Qle_bool 0 q then Qfloor q else (- Qfloor (- q))%Z.
Definition fmod (x y : Q) : Q := x - y * inject_Z (Qtrunc (x / y)).
(** CPython's [float_rem], the [%] of two floats: [fmod], then the
    divisor added (and rounded) when the remainder's sign differs from the
    divisor's; a zero remainder is [0.0]. *)
Definition float_rem (x y : Q) : Q :=
  let m := fmod x y in
  if Qeq_bool m 0 then 0
  else if Bool.eqb (Qltb y 0) (Qltb m 0) then m else fadd m y.

End Binary64.

(** [fix_rotation] and [rotate] over Python floats: the code of section
    [Rotation] with every float operation rounded. *)
Module Float64.
Section Rotation.

Variable re_search : string -> string -> option bool.

(** [original.AsDegrees()], or [original / 10] on older KiCad. *)
Definition orientation_degrees (o : orientation) : Q :=
  match o with
  | EdaAngle d => d
  | Tenths t => fdiv t 10
  end.

(** [Fabrication.rotate]: [(rotation + int(correction)) % 360] on the top
    side, [(rotation - int(correction)) % 360] on the bottom side. *)
Definition rotate (fp : footprint) (rotation : Q) (corr : Z) : Q :=
  if fp_layer fp =? 0
  then float_rem (fadd rotation (float_of_int corr)) 360
  else float_rem (fsub rotation (float_of_int corr)) 360.

(** The rotation after [rotation = (180 - rotation) % 360] on the bottom. *)
Definition base_rotation (fp : footprint) : Q :=
  let rotation := orientation_degrees (fp_orientation fp) in
  if negb (fp_layer fp =? 0) then float_rem (fsub 180 rotation) 360 else rotation.

(** [Fabrication.fix_rotation] *)
Definition fix_rotation (rules : list correction) (fp : footprint)
  : exc + Q :=
  let rotation := base_rotation fp in
  match first_match re_search rules (fp_value fp) with
  | inl e => inl e
  | inr (Some corr) => inr (rotate fp rotation corr)
  | inr None =>
      match first_match re_search rules (fp_package fp) with
      | inl e => inl e
      | inr (Some corr) => inr (rotate fp rotation corr)
      | inr None => inr rotation
      end
  end.

End Rotation.
End Float64.

(* ------------------------------------------------------------------ *)
(** ** A concrete [re.search] for concrete runs

    Python's [re] module restricted to patterns whose only special
    characters are parentheses: a pattern with unbalanced parentheses
    raises [re.error] ("missing ), unterminated subpattern" or
    "unbalanced parenthesis"); otherwise the groups are transparent and the
    pattern matches iff its remaining characters occur in the text. *)

Fixpoint parens_balanced (depth : nat) (s : string) : bool :=
  match s with
  | EmptyString => Nat.eqb depth 0
  | String c rest =>
      if Ascii.eqb c "("%char then parens_balanced (S depth) rest
      else if Ascii.eqb c ")"%char then
        match depth with
        | O => false
        | S d => parens_balanced d rest
        end
      else parens_balanced depth rest
  end.

Fixpoint strip_parens (s : string) : string :=
  match s with
  | EmptyString => EmptyString
  | String c rest =>
      if Ascii.eqb c "("%char || Ascii.eqb c ")"%char
      then strip_parens rest else String c (strip_parens rest)
  end.

Definition re_search_lit (pattern text : string) : option bool :=
  if parens_balanced 0 pattern then
    match String.index 0 (strip_parens pattern) text with
    | Some _ => Some true
    | None => Some false
    end
  else None.

(* ------------------------------------------------------------------ *)
(** ** The Gerber plot plan of [generate_geber] *)

(** Decimal rendering of a natural number, as an f-string does. *)
Fixpoint dec_aux (fuel n : nat) (acc : string) : string :=
  match fuel with
  | O => acc
  | S f =>
      let acc' := String (Ascii.ascii_of_nat (48 + Nat.modulo n 10)) acc in
      if Nat.ltb n 10 then acc' else dec_aux f (Nat.div n 10) acc'
  end.

Definition dec (n : nat) : string := dec_aux (S n) n EmptyString.

(** A plot job [(file name, layer id, label)]. *)
Definition plot_layer := (string * Z * string)%type.

Definition pl_name (p : plot_layer) : string := fst (fst p).
Definition pl_layer (p : plot_layer) : Z := snd (fst p).

Definition plot_plan_top : list plot_layer :=
  [ ("CuTop", F_Cu, "Top layer");
    ("SilkTop", F_SilkS, "Silk top");
    ("MaskTop", F_Mask, "Mask top");
    ("PasteTop", F_Paste, "Paste top") ]%string.

Definition plot_plan_bottom : list plot_layer :=
  [ ("CuBottom", B_Cu, "Bottom layer");
    ("SilkBottom", B_SilkS, "Silk top");
    ("MaskBottom", B_Mask, "Mask bottom");
    ("PasteBottom", B_Paste, "Paste bottom");
    ("EdgeCuts", Edge_Cuts, "Edges");
    ("VScore", Cmts_User, "V score cut") ]%string.

(** [(f"CuIn{layer}", layer, f"Inner layer {layer}")] *)
Definition inner_layer (layer : nat) : plot_layer :=
  (("CuIn" ++ dec layer)%string, Z.of_nat layer,
   ("Inner layer " ++ dec layer)%string).

(** [plot_plan_bottom[-2:]] *)
Definition last_two {A} (l : list A) : list A :=
  skipn (length l - 2) l.

(** [plot_plan] as built in [generate_geber] for [layer_count];
    [range(1, layer_count - 1)] is [seq 1 (layer_count - 2)]. *)
Definition plot_plan (layer_count : nat) : list plot_layer :=
  if Nat.eqb layer_count 1 then plot_plan_top ++ last_two plot_plan_bottom
  else if Nat.eqb layer_count 2 then plot_plan_top ++ plot_plan_bottom
  else plot_plan_top ++ map inner_layer (seq 1 (layer_count - 2))
       ++ plot_plan_bottom.

(** [if not layer_count: layer_count = self.board.GetCopperLayerCount()] *)
Definition effective_layer_count (arg : option nat) (board_count : nat) : nat :=
  match arg with
  | None | Some O => board_count
  | Some n => n
  end.

(** The argument of [popt.SetSkipPlotNPTH_Pads] before plotting
    [layer_info]: [layer_info[1] <= B_Cu]. *)
Definition skip_npth (layer_info : plot_layer) : bool :=
  pl_layer layer_info <=? B_Cu.

(** The plot loop of [generate_geber]: for each planned layer, the NPTH
    flag set and the layer plotted. *)
Definition plot_calls (layer_count : nat) : list (bool * plot_layer) :=
  map (fun li => (skip_npth li, li)) (plot_plan layer_count).

(* ------------------------------------------------------------------ *)
(** ** Placement positions: [get_position] and the CPL coordinates *)

(** [pcbnew.ToMM]: internal units (nanometres) to millimetres. *)
Definition ToMM (iu : Z) : Q := inject_Z iu / inject_Z 1000000.

(** Modelled from the spec: [helpers.get_smd] (not part of the sources
    given), "is-surface-mount" of the footprint view. *)
Definition get_smd (fp : footprint) : bool := fp_smd fp.

(** Modelled from the spec: [helpers.get_exclude_from_pos] (not part of the
    sources given), "excluded-from-placement" of the footprint view. *)
Definition get_exclude_from_pos (fp : footprint) : bool :=
  fp_exclude_from_pos fp.

(** Modelled from the spec: [helpers.get_footprint_by_ref] (not part of
    the sources given), the footprints of the board whose reference
    designator is [ref], "zero or more matches", in board order. *)
Definition get_footprint_by_ref (board : list footprint) (ref : string)
  : list footprint :=
  filter (fun fp => String.eqb (fp_reference fp) ref) board.

(** [Fabrication.get_position] *)
Definition get_position (fp : footprint) : Z * Z :=
  if get_smd fp then fp_position fp else fp_bbox_center fp.

(** [self.get_position(fp) - aux_orgin] (a [VECTOR2I] difference), then
    [ToMM(position.x)] and [ToMM(position.y) * -1]. *)
Definition cpl_xy (aux_origin : Z * Z) (fp : footprint) : Q * Q :=
  let position := (fst (get_position fp) - fst aux_origin,
                   snd (get_position fp) - snd aux_origin) in
  (ToMM (fst position), (ToMM (snd position) * -1)%Q).

(* ------------------------------------------------------------------ *)
(** ** The CPL export [generate_cpl] *)

(** A part of [self.parent.store.read_pos_parts()]: [part[0]],
    [part[1]], [part[2]] and the LCSC number [part[4]] ([None] or a
    string). *)
Record part := mkPart {
  pt_reference : string;
  pt_value : string;
  pt_footprint : string;
  pt_lcsc : option string
}.

(** Python truthiness of [part[4]]. *)
Definition truthy (s : option string) : bool :=
  match s with
  | None | Some EmptyString => false
  | Some _ => true
  end.

(** A data row of the CPL file. *)
Record cpl_row := mkRow {
  row_designator : string;
  row_val : string;
  row_package : string;
  row_x : Q;
  row_y : Q;
  row_rotation : Q;
  row_layer : string
}.

(** A line written by [csv.writer.writerow]. *)
Inductive line :=
| Header   (** [["Designator", "Val", "Package", "Mid X", "Mid Y",
              "Rotation", "Layer"]] *)
| Row (r : cpl_row).

(** The output files: path and the lines written to it. *)
Definition fs := list (string * list line).

Fixpoint fs_lookup (s : fs) (path : string) : option (list line) :=
  match s with
  | [] => None
  | (p, c) :: rest => if String.eqb p path then Some c else fs_lookup rest path
  end.

Fixpoint fs_set (s : fs) (path : string) (c : list line) : fs :=
  match s with
  | [] => [(path, c)]
  | (p, c0) :: rest =>
      if String.eqb p path then (p, c) :: rest else (p, c0) :: fs_set rest path c
  end.

(** A state and exception monad over the output files: an exception leaves
    the files as they were when it was raised (the [with] block closes the
    file, nothing is rolled back). *)
Definition M (A : Type) : Type := fs -> fs * (exc + A).

Definition ret {A} (a : A) : M A := fun s => (s, inr a).

Definition bind {A B} (m : M A) (k : A -> M B) : M B :=
  fun s => match m s with
           | (s', inl e) => (s', inl e)
           | (s', inr a) => k a s'
           end.

Notation "x <- m ;; k" := (bind m (fun x => k))
  (at level 61, m at next level, right associativity).
Notation "m ;;; k" := (bind m (fun _ => k))
  (at level 61, right associativity).

(** An expression that may raise. *)
Definition lift {A} (r : exc + A) : M A := fun s => (s, r).

(** [open(path, "w")]: creates the file, or truncates it. *)
Definition open_w (path : string) : M unit :=
  fun s => (fs_set s path [], inr tt).

(** [writer.writerow(...)] on the file [path]. *)
Definition writerow (path : string) (l : line) : M unit :=
  fun s => (fs_set s path (match fs_lookup s path with
                           | Some c => c ++ [l]
                           | None => [l]
                           end), inr tt).

(** A [for] loop over a list. *)
Fixpoint for_each {A} (l : list A) (body : A -> M unit) : M unit :=
  match l with
  | [] => ret tt
  | x :: rest => body x ;;; for_each rest body
  end.

(** [s.split('.')[0]] *)
Fixpoint before_dot (s : string) : string :=
  match s with
  | EmptyString => EmptyString
  | String c rest =>
      if Ascii.eqb c "."%char then EmptyString else String c (before_dot rest)
  end.

(** What [generate_cpl] reads from the board, the parent plugin and its
    settings. *)
Record cpl_env := mkEnv {
  env_filename : string;                (** [self.filename] *)
  env_outputdir : string;               (** [self.outputdir] *)
  env_board : list footprint;           (** the board's footprints *)
  env_aux_origin : Z * Z;               (** [GetAuxOrigin()] *)
  env_corrections : list correction;    (** [get_all_correction_data()] *)
  env_pos_parts : list part;            (** [read_pos_parts()] *)
  env_lcsc_bom_pos : option bool        (** [settings["gerber"]["lcsc_bom_pos"]] *)
}.

Definition cpl_path (env : cpl_env) : string :=
  (env_outputdir env ++ "/CPL-" ++ before_dot (env_filename env) ++ ".csv")%string.

Section Cpl.

Variable re_search : string -> string -> option bool.

(** The row [[part[0], part[1], part[2], ToMM(position.x),
    ToMM(position.y) * -1, self.fix_rotation(fp), "top" or "bottom"]]. *)
Definition cpl_row_of (env : cpl_env) (p : part) (fp : footprint) (rot : Q)
  : cpl_row :=
  let xy := cpl_xy (env_aux_origin env) fp in
  mkRow (pt_reference p) (pt_value p) (pt_footprint p) (fst xy) (snd xy) rot
        (if (fp_layer fp =? 0)%Z then "top"%string else "bottom"%string).

(** [.get("lcsc_bom_pos", True)] *)
Definition add_without_lcsc (env : cpl_env) : bool :=
  match env_lcsc_bom_pos env with
  | Some b => b
  | None => true
  end.

(** The body of the inner loop of [generate_cpl] for [part] and [fp]. *)
Definition cpl_footprint (env : cpl_env) (corrections : list correction)
  (p : part) (fp : footprint) : M unit :=
  if get_exclude_from_pos fp then ret tt
  else if negb (add_without_lcsc env) && negb (truthy (pt_lcsc p)) then ret tt
  else
    rot <- lift (fix_rotation re_search corrections fp) ;;
    writerow (cpl_path env) (Row (cpl_row_of env p fp rot)).

(** [Fabrication.generate_cpl] *)
Definition generate_cpl (env : cpl_env) : M unit :=
  let corrections := env_corrections env in
  open_w (cpl_path env) ;;;
  writerow (cpl_path env) Header ;;;
  for_each (env_pos_parts env) (fun p =>
    for_each (get_footprint_by_ref (env_board env) (pt_reference p))
      (cpl_footprint env corrections p)).

End Cpl.

(* ------------------------------------------------------------------ *)
(** ** Concrete boards used to instantiate the properties *)

(** 1 mm in internal units. *)
Definition mm (x : Z) : Z := x * 1000000.

(** The surface-mount SOT-23 part of the end-to-end scenario, on the bottom
    layer at (100, 50) mm with a raw rotation of 45 degrees. *)
Definition fp_sot23_bottom : footprint :=
  mkFootprint "Q1" "BC847" "SOT-23" (EdaAngle 45) B_Cu (mm 100, mm 50)
              (mm 100, mm 50) true false.

(** A top-side resistor with an orientation of -90 degrees. *)
Definition fp_r_top_neg : footprint :=
  mkFootprint "R1" "10k" "R_0603" (EdaAngle (-90)) F_Cu (mm 15, mm 20)
              (mm 15, mm 20) true false.

(** Two footprints carrying only a side, for [rotate]. *)
Definition fp_top : footprint :=
  mkFootprint "U1" "" "" (EdaAngle 0) F_Cu (0, 0) (0, 0) true false.
Definition fp_bottom : footprint :=
  mkFootprint "U2" "" "" (EdaAngle 0) B_Cu (0, 0) (0, 0) true false.

Definition sot23_rules : list correction := [("SOT-23", 180)]%string.

(** A CPL run over one board footprint and its part. *)
Definition env_one (fp : footprint) (rules : list correction)
  (lcsc : option string) (flag : option bool) : cpl_env :=
  mkEnv "board.kicad_pcb" "jlcpcb/production_files" [fp] (mm 10, mm 10) rules
        [mkPart (fp_reference fp) (fp_value fp) (fp_package fp) lcsc] flag.

(** The rotation column of the lines of a CPL file. *)
Definition rotation_column (ls : list line) : list (option Q) :=
  map (fun l => match l with Row r => Some (row_rotation r) | Header => None end) ls.

(* ------------------------------------------------------------------ *)
(** ** Placement pairs as the spec describes them *)

(** The spec's placement export: for every part, the footprints with its
    reference; a footprint flagged "exclude from placement" is skipped, and
    a part without a supplier id is skipped unless [lcsc_bom_pos] permits
    it; every surviving [(part, footprint)] pair gives one row. *)
Definition placement_pair (env : cpl_env) (p : part) (fp : footprint)
  : list (part * footprint) :=
  if get_exclude_from_pos fp then []
  else if negb (truthy (pt_lcsc p)) && negb (add_without_lcsc env) then []
  else [(p, fp)].

Definition placement_pairs (env : cpl_env) : list (part * footprint) :=
  flat_map (fun p => flat_map (placement_pair env p)
                       (get_footprint_by_ref (env_board env) (pt_reference p)))
           (env_pos_parts env).

(** The row written for a pair, given the rules of the run. *)
Definition row_for (re_search : string -> string -> option bool)
  (env : cpl_env) (pf : part * footprint) (r : cpl_row) : Prop :=
  exists rot, fix_rotation re_search (env_corrections env) (snd pf) = inr rot /\
              r = cpl_row_of env (fst pf) (snd pf) rot.

(** A board for the CPL export: [R1] placed twice, [R2] without an LCSC
    number, [R3] excluded from placement. *)
Definition fp_at (ref : string) (excl : bool) : footprint :=
  mkFootprint ref "10k" "R_0603" (EdaAngle 90) F_Cu (mm 20, mm 30)
              (mm 20, mm 30) true excl.

Definition env_three (flag : option bool) : cpl_env :=
  mkEnv "board.kicad_pcb" "jlcpcb/production_files"
        [fp_at "R1" false; fp_at "R1" false; fp_at "R2" false; fp_at "R3" true]
        (mm 10, mm 10) sot23_rules
        [mkPart "R1" "10k" "R_0603" (Some "C25804");
         mkPart "R2" "10k" "R_0603" None;
         mkPart "R3" "10k" "R_0603" (Some "C25804")]%string flag.

(* ------------------------------------------------------------------ *)
(** ** The Gerber directory: [generate_geber], [generate_excellon],
       [zip_gerber_excellon] *)

(** An entry of [self.gerberdir]. *)
Inductive dentry :=
| DFile (name : string)
| DDir (name : string).

(** [os.remove] on a directory raises. *)
Inductive os_exc :=
| IsADirectoryError (name : string).

(** [for f in os.listdir(self.gerberdir): os.remove(...)]: the entries left
    and the exception raised, if any. *)
Fixpoint remove_all (d : list dentry) : list dentry * option os_exc :=
  match d with
  | [] => ([], None)
  | DFile _ :: rest => remove_all rest
  | DDir n :: rest => (DDir n :: rest, Some (IsADirectoryError n))
  end.

Definition is_file_named (name : string) (e : dentry) : bool :=
  match e with
  | DFile n => String.eqb n name
  | DDir _ => false
  end.

(** Writing the file [name] into the directory: created, or overwritten in
    place. *)
Definition add_file (d : list dentry) (name : string) : list dentry :=
  if existsb (is_file_named name) d then d else d ++ [DFile name].

(** Log records of the plot loop. *)
Inductive plot_log :=
| PlotError (label : string)      (** ["Error plotting %s"] *)
| PlotSuccess (label : string).   (** ["Successfully plotted %s"] *)

Definition pl_label (p : plot_layer) : string := snd p.

Section Gerber.

(** The file [pctl.OpenPlotfile] creates for a planned layer, and whether
    [pctl.PlotLayer()] succeeds on it (both decided by pcbnew). *)
Variable plot_file : plot_layer -> string.
Variable plot_ok : plot_layer -> bool.

(** The plot loop of [generate_geber]: the directory and the log. *)
Fixpoint plot_loop (plan : list plot_layer) (d : list dentry)
  : list dentry * list plot_log :=
  match plan with
  | [] => (d, [])
  | li :: rest =>
      let d1 := add_file d (plot_file li) in
      let log1 := (if plot_ok li then [] else [PlotError (pl_label li)])
                  ++ [PlotSuccess (pl_label li)] in
      let (d2, logs) := plot_loop rest d1 in
      (d2, log1 ++ logs)
  end.

(** [Fabrication.generate_geber] on the Gerber directory [d] for
    [layer_count] copper layers: the directory, the log and the exception
    raised by the clearing loop, if any. *)
Definition generate_geber_dir (layer_count : nat) (d : list dentry)
  : list dentry * list plot_log * option os_exc :=
  match remove_all d with
  | (d', Some e) => (d', [], Some e)
  | (d', None) =>
      let (d'', logs) := plot_loop (plot_plan layer_count) d' in
      (d'', logs, None)
  end.

(** The drill and map files written by
    [drlwriter.CreateDrillandMapFilesSet] (names decided by pcbnew). *)
Variable drill_files : list string.

(** [Fabrication.generate_excellon] on the Gerber directory. *)
Definition generate_excellon_dir (d : list dentry) : list dentry :=
  fold_left add_file drill_files d.

End Gerber.

(** [s.endswith(suffix)] *)
Definition endswith (s suffix : string) : bool :=
  Nat.leb (String.length suffix) (String.length s) &&
  String.eqb (substring (String.length s - String.length suffix)
                        (String.length suffix) s) suffix.

(** [filename.endswith(("gbr", "drl", "pdf"))] *)
Definition zip_ext (filename : string) : bool :=
  endswith filename "gbr" || endswith filename "drl" || endswith filename "pdf".

(** [Fabrication.zip_gerber_excellon] over the result of
    [os.walk(self.gerberdir)] (folder and file names): the archive entries
    [(file path, arcname)], in order. *)
Definition zip_entries (walk : list (string * list string))
  : list (string * string) :=
  flat_map (fun '(folder, filenames) =>
              map (fun filename => ((folder ++ "/" ++ filename)%string, filename))
                  (filter zip_ext filenames))
           walk.

(** The file names of a directory with no subdirectory. *)
Definition file_names (d : list dentry) : list string :=
  flat_map (fun e => match e with DFile n => [n] | DDir _ => [] end) d.

(** [os.walk] of a directory with no subdirectory. *)
Definition walk_flat (dir : string) (d : list dentry) : list (string * list string) :=
  [(dir, file_names d)].

(** A boolean check that a list has no repeated element. *)
Fixpoint nodupb {A} (eqb : A -> A -> bool) (l : list A) : bool :=
  match l with
  | [] => true
  | x :: rest => negb (existsb (eqb x) rest) && nodupb eqb rest
  end.

(** The ["Successfully plotted"] records of a log. *)
Definition is_success (l : plot_log) : bool :=
  match l with PlotSuccess _ => true | PlotError _ => false end.

(** The names pcbnew gives the plotted layers of [board.kicad_pcb]
    (["<board>-<suffix>.gbr"]) and its drill and map files, for concrete
    runs. *)
Definition kicad_plot_file (li : plot_layer) : string :=
  ("board-" ++ pl_name li ++ ".gbr")%string.

Definition kicad_drill_files : list string :=
  ["board-PTH.drl"; "board-NPTH.drl"; "board-PTH-drl_map.pdf";
   "board-NPTH-drl_map.pdf"]%string.

(* ================================================================== *)
(** * Properties *)

From Stdlib Require Import Lqa Morphisms.
Open Scope Q_scope.

(* ------------------------------------------------------------------ *)

Lemma inject_Z_sub (x y : Z) : inject_Z (x - y) = inject_Z x - inject_Z y.
Proof.
  rewrite <- Z.add_opp_r, inject_Z_plus, inject_Z_opp. reflexivity.
Qed.

#[export] Instance pymod_proper : Proper (Qeq ==> eq ==> Qeq) pymod.
Proof.
  intros x y Hxy m m' <-. unfold pymod.
  assert (E : Qfloor (x / m) = Qfloor (y / m)).
  { apply Qfloor_comp. apply Qdiv_comp; [exact Hxy | reflexivity]. }
  rewrite E. apply Qplus_comp; [exact Hxy | reflexivity].
Qed.


(* ------------------------------------------------------------------ *)
(** ** The rule scan of [fix_rotation] *)

(* ------------------------------------------------------------------ *)
(** ** Python float arithmetic *)

Lemma pow2_pos (e : Z) : 0 < pow2 e.
Proof. apply Qpower_0_lt. lra. Qed.

Lemma pow2_plus (a b : Z) : pow2 (a + b) == pow2 a * pow2 b.
Proof. unfold pow2. apply Qpower_plus. discriminate. Qed.

Lemma pow2_nat (n : Z) : (0 <= n)%Z -> pow2 n == inject_Z (2 ^ n).
Proof. intros H. unfold pow2. rewrite Zpower_Qpower by exact H. reflexivity. Qed.

Lemma pow2_lt_inv (a b : Z) : pow2 a < pow2 b -> (a < b)%Z.
Proof. intros H. apply Qpower_lt_compat_l_inv with (q := 2); [exact H | lra]. Qed.

Lemma Qdiv_le_cross (a b c d : Q) :
  0 < b -> 0 < d -> a * d <= c * b -> a / b <= c / d.
Proof.
  intros Hb Hd H. apply Qle_shift_div_l; [exact Hd |].
  setoid_replace (a / b * d) with ((a * d) / b) by (field; lra).
  apply Qle_shift_div_r; [exact Hb | exact H].
Qed.

Lemma Qmult_div_le (a b c : Q) : 0 < b -> a <= c / b -> a * b <= c.
Proof.
  intros Hb H. setoid_replace c with (c / b * b) by (field; lra).
  apply Qmult_le_compat_r; lra.
Qed.

(** The exponent chosen by [binade] never overshoots: [2^52 * 2^e <= a]. *)
Lemma binade_lower (a : Q) : 0 < a -> pow2 52 * pow2 (binade a) <= a.
Proof.
  intros Ha. unfold binade.
  set (e0 := (Z.log2 (Qnum a) - Z.log2 (Zpos (Qden a)) - 53)%Z).
  destruct (Qle_bool (pow2 52) (a / pow2 (e0 + 1))) eqn:E.
  - apply Qle_bool_iff in E. apply Qmult_div_le; [apply pow2_pos | exact E].
  - destruct a as [p q]. cbn [Qnum Qden] in e0.
    assert (Hp : (0 < p)%Z).
    { unfold Qlt in Ha. simpl in Ha. lia. }
    destruct (Z.log2_spec p Hp) as [Hp1 Hp2].
    destruct (Z.log2_spec (Zpos q) eq_refl) as [Hq1 Hq2].
    set (lp := Z.log2 p) in *. set (lq := Z.log2 (Zpos q)) in *.
    assert (Hlp : (0 <= lp)%Z) by apply Z.log2_nonneg.
    assert (Hlq : (0 <= lq)%Z) by apply Z.log2_nonneg.
    assert (He : pow2 52 * pow2 e0 == pow2 lp / pow2 (lq + 1)).
    { rewrite <- pow2_plus. unfold Qdiv. unfold pow2 at 3.
      rewrite <- Qpower_opp. fold (pow2 (- (lq + 1))). rewrite <- pow2_plus.
      unfold e0, lp, lq. apply Qpower_comp; [reflexivity |]. lia. }
    rewrite He, Qmake_Qdiv, !pow2_nat by lia.
    apply Qdiv_le_cross.
    + change 0 with (inject_Z 0). rewrite <- Zlt_Qlt. lia.
    + change 0 with (inject_Z 0). rewrite <- Zlt_Qlt. lia.
    + rewrite <- !inject_Z_mult, <- Zle_Qle. rewrite Z.pow_add_r by lia.
      rewrite Z.pow_succ_r in Hq2 by lia.
      assert (H1 : (2 ^ lp * Zpos q <= p * Zpos q)%Z)
        by (apply Z.mul_le_mono_nonneg_r; lia).
      assert (H2 : (p * Zpos q <= p * (2 ^ lq * 2 ^ 1))%Z)
        by (apply Z.mul_le_mono_nonneg_l; lia).
      lia.
Qed.

Lemma round_half_even_proper (x y : Q) :
  x == y -> round_half_even x = round_half_even y.
Proof.
  intros H. unfold round_half_even. rewrite (Qfloor_comp x y H).
  rewrite (Qcompare_comp (x - inject_Z (Qfloor y)) (y - inject_Z (Qfloor y))
             ltac:(rewrite H; reflexivity) (1 # 2) (1 # 2) ltac:(reflexivity)).
  reflexivity.
Qed.

Lemma round_half_even_int (k : Z) : round_half_even (inject_Z k) = k.
Proof.
  unfold round_half_even. rewrite Qfloor_Z.
  assert (H : inject_Z k - inject_Z k < 1 # 2) by lra.
  rewrite (proj1 (Qlt_alt _ _) H). reflexivity.
Qed.



Lemma round64_proper (x y : Q) : x == y -> round64 x = round64 y.
Proof. intros H. unfold round64. rewrite (Qred_complete x y H). reflexivity. Qed.

(** Below [2^53] the binade exponent is at most 0, so the scaled value
    [a / 2^e] is [a] times a whole power of two. *)
Lemma round_core (a : Q) :
  0 < a -> a < inject_Z (2 ^ 53) ->
  (Z.max (binade a) (-1074) <= 0)%Z /\
  a / pow2 (Z.max (binade a) (-1074))
    == a * inject_Z (2 ^ (- Z.max (binade a) (-1074))) /\
  inject_Z (2 ^ (- Z.max (binade a) (-1074))) * pow2 (Z.max (binade a) (-1074))
    == 1.
Proof.
  intros H0 H1.
  assert (Hb : (binade a <= 0)%Z).
  { assert (L := binade_lower a H0).
    rewrite <- pow2_plus in L.
    assert (Hp : pow2 (52 + binade a) < pow2 53).
    { rewrite (pow2_nat 53) by lia. lra. }
    apply pow2_lt_inv in Hp. lia. }
  set (e := Z.max (binade a) (-1074)).
  assert (He : (e <= 0)%Z) by (unfold e; lia).
  assert (Hinv : pow2 e == / inject_Z (2 ^ (- e))).
  { rewrite <- pow2_nat by lia. unfold pow2. rewrite <- Qpower_opp.
    rewrite Z.opp_involutive. reflexivity. }
  assert (Hpos : 0 < inject_Z (2 ^ (- e))).
  { rewrite <- pow2_nat by lia. apply pow2_pos. }
  split; [exact He |]. split.
  - rewrite Hinv. field. lra.
  - rewrite Hinv. field. lra.
Qed.

(** Whole numbers below [2^53] in magnitude are floats: rounding keeps them. *)
Lemma round64_int (z : Z) : (Z.abs z < 2 ^ 53)%Z -> round64 (inject_Z z) == inject_Z z.
Proof.
  intros Hz. unfold round64. cbv zeta.
  set (y := Qred (inject_Z z)).
  assert (Hy : y == inject_Z z) by apply Qred_correct.
  destruct (Qeq_bool y 0) eqn:E0.
  - apply Qeq_bool_iff in E0. rewrite <- Hy, E0. reflexivity.
  - apply Qeq_bool_neq in E0.
    assert (Hzq : inject_Z (Z.abs z) < inject_Z (2 ^ 53)) by (rewrite <- Zlt_Qlt; exact Hz).
    destruct (Qle_bool 0 y) eqn:Es.
    + apply Qle_bool_iff in Es.
      assert (Hz0 : (0 <= z)%Z) by (rewrite Zle_Qle; change (inject_Z 0) with 0; lra).
      rewrite Z.abs_eq in Hzq by exact Hz0.
      destruct (round_core y ltac:(lra) ltac:(lra)) as [He [Hs H1]].
      set (e := Z.max (binade y) (-1074)) in *.
      rewrite (round_half_even_proper _ (inject_Z (z * 2 ^ (- e)))).
      * rewrite round_half_even_int, inject_Z_mult, <- Qmult_assoc, H1. lra.
      * rewrite Hs, Hy, inject_Z_mult. reflexivity.
    + assert (Hneg : y < 0).
      { destruct (Qlt_le_dec y 0) as [Hl | Hl]; [exact Hl |].
        apply Qle_bool_iff in Hl. congruence. }
      assert (Hz0 : (z < 0)%Z) by (rewrite Zlt_Qlt; change (inject_Z 0) with 0; lra).
      rewrite Z.abs_neq in Hzq by lia. rewrite inject_Z_opp in Hzq.
      destruct (round_core (- y) ltac:(lra) ltac:(lra)) as [He [Hs H1]].
      set (e := Z.max (binade (- y)) (-1074)) in *.
      rewrite (round_half_even_proper _ (inject_Z (- z * 2 ^ (- e)))).
      * rewrite round_half_even_int, inject_Z_mult, <- Qmult_assoc, H1,
          inject_Z_opp. lra.
      * rewrite Hs, Hy, inject_Z_mult, inject_Z_opp. reflexivity.
Qed.



(** C's [fmod] by a positive [y] lies strictly between [-y] and [y]. *)
Lemma fmod_bounds (x y : Q) : 0 < y -> - y < fmod x y /\ fmod x y < y.
Proof.
  intros Hy. unfold fmod, Qtrunc.
  set (q := x / y).
  assert (Hx : x == q * y) by (unfold q; field; lra).
  destruct (Qle_bool 0 q) eqn:E.
  - apply Qle_bool_iff in E.
    assert (L1 := Qfloor_le q). assert (L2 := Qlt_floor q).
    rewrite inject_Z_plus in L2. change (inject_Z 1) with 1 in L2.
    rewrite Hx. split; nra.
  - assert (Hq : q < 0).
    { destruct (Qlt_le_dec q 0) as [Hl | Hl]; [exact Hl |].
      apply Qle_bool_iff in Hl. congruence. }
    assert (L1 := Qfloor_le (- q)). assert (L2 := Qlt_floor (- q)).
    rewrite inject_Z_plus in L2. change (inject_Z 1) with 1 in L2.
    rewrite inject_Z_opp, Hx. split; nra.
Qed.

Lemma fmod_int (z : Z) :
  exists t, fmod (inject_Z z) 360 == inject_Z (z - 360 * t).
Proof.
  exists (Qtrunc (inject_Z z / 360)). unfold fmod.
  rewrite inject_Z_sub, inject_Z_mult. reflexivity.
Qed.


(** On whole numbers below [2^53], Python's [x % 360] is the integer
    [x mod 360]. *)
Lemma float_rem_int (z : Z) : (Z.abs z < 2 ^ 53)%Z ->
  float_rem (inject_Z z) 360 == inject_Z (z mod 360).
Proof.
  intros Hz. unfold float_rem. cbv zeta.
  destruct (fmod_int z) as [t Ht].
  destruct (fmod_bounds (inject_Z z) 360 ltac:(lra)) as [H1 H2].
  set (m := fmod (inject_Z z) 360) in *.
  set (M := (z - 360 * t)%Z) in *.
  rewrite Ht in H1, H2.
  assert (HM : (-360 < M < 360)%Z).
  { split; [rewrite Zlt_Qlt | rewrite Zlt_Qlt]; change (inject_Z 360) with 360;
      change (inject_Z (-360)) with (- (360)); lra. }
  destruct (Qeq_bool m 0) eqn:E0.
  - apply Qeq_bool_iff in E0. rewrite Ht in E0.
    assert (M = 0%Z) by (apply inject_Z_injective; exact E0).
    rewrite (Z.mod_unique z 360 t 0); [reflexivity | lia | lia].
  - apply Qeq_bool_neq in E0. rewrite Ht in E0.
    assert (HM0 : M <> 0%Z) by (intros HM0; apply E0; rewrite HM0; reflexivity).
    change (Qltb 360 0) with false.
    destruct (Qltb m 0) eqn:E; cbn [Bool.eqb].
    + unfold Qltb in E. apply negb_true_iff in E.
      rewrite Ht in E.
      assert (HMn : (M < 0)%Z).
      { destruct (Z_lt_le_dec M 0) as [Hl | Hl]; [exact Hl |].
        rewrite Zle_Qle in Hl. apply Qle_bool_iff in Hl.
        change (inject_Z 0) with 0 in Hl. congruence. }
      unfold fadd. rewrite (round64_proper _ (inject_Z (M + 360))).
      * rewrite round64_int by lia.
        rewrite (Z.mod_unique z 360 (t - 1) (M + 360)); [reflexivity | lia | lia].
      * rewrite Ht, inject_Z_plus. reflexivity.
    + unfold Qltb in E. apply negb_false_iff, Qle_bool_iff in E.
      rewrite Ht in E |- *.
      assert (HMp : (0 <= M)%Z) by (rewrite Zle_Qle; exact E).
      rewrite (Z.mod_unique z 360 t M); [reflexivity | lia | lia].
Qed.

Lemma fmod_proper (x x' y : Q) : x == x' -> fmod x y == fmod x' y.
Proof.
  intros H. unfold fmod, Qtrunc.
  assert (Hq : x / y == x' / y) by (rewrite H; reflexivity).
  rewrite (Qleb_comp 0 0 (Qeq_refl 0) _ _ Hq).
  rewrite (Qfloor_comp _ _ Hq).
  assert (Hq' : - (x / y) == - (x' / y)) by (rewrite Hq; reflexivity).
  rewrite (Qfloor_comp _ _ Hq'). rewrite H. reflexivity.
Qed.

Lemma float_rem_proper (x x' y : Q) : x == x' -> float_rem x y == float_rem x' y.
Proof.
  intros H. unfold float_rem. cbv zeta.
  assert (Hm := fmod_proper x x' y H).
  rewrite (Qeqb_comp _ _ Hm 0 0 (Qeq_refl 0)).
  unfold Qltb. rewrite (Qleb_comp 0 0 (Qeq_refl 0) _ _ Hm).
  unfold fadd. rewrite (round64_proper (fmod x y + y) (fmod x' y + y))
    by (rewrite Hm; reflexivity).
  destruct (Qeq_bool (fmod x' y) 0); [reflexivity |].
  destruct (Bool.eqb _ _); [exact Hm | reflexivity].
Qed.



Lemma float_rotate_proper (fp : footprint) (r r' : Q) (c : Z) :
  r == r' -> Float64.rotate fp r c == Float64.rotate fp r' c.
Proof.
  intros H. unfold Float64.rotate, fadd, fsub.
  rewrite (round64_proper (r + float_of_int c) (r' + float_of_int c))
    by (rewrite H; reflexivity).
  rewrite (round64_proper (r - float_of_int c) (r' - float_of_int c))
    by (rewrite H; reflexivity).
  reflexivity.
Qed.

(** Whole-degree corrections of whole angles are computed exactly. *)
Lemma float_rotate_int (fp : footprint) (r c : Z) :
  (Z.abs r < 2 ^ 52)%Z -> (Z.abs c < 2 ^ 52)%Z ->
  Float64.rotate fp (inject_Z r) c
  == inject_Z ((if fp_layer fp =? 0 then r + c else r - c) mod 360).
Proof.
  intros Hr Hc. unfold Float64.rotate, fadd, fsub, float_of_int.
  assert (Hc' : round64 (inject_Z c) == inject_Z c) by (apply round64_int; lia).
  destruct (fp_layer fp =? 0)%Z.
  - rewrite (round64_proper _ (inject_Z (r + c)))
      by (rewrite Hc', inject_Z_plus; reflexivity).
    rewrite (float_rem_proper _ (inject_Z (r + c))) by (apply round64_int; lia).
    apply float_rem_int. lia.
  - rewrite (round64_proper _ (inject_Z (r - c)))
      by (rewrite Hc', inject_Z_sub; reflexivity).
    rewrite (float_rem_proper _ (inject_Z (r - c))) by (apply round64_int; lia).
    apply float_rem_int. lia.
Qed.

Section Scan.

Variable re_search : string -> string -> option bool.

Lemma first_match_nth (rules : list correction) (text : string)
  (i : nat) (regex : string) (corr : Z) :
  nth_error rules i = Some (regex, corr) ->
  (forall j r c, (j < i)%nat -> nth_error rules j = Some (r, c) ->
                 re_search r text = Some false) ->
  re_search regex text = Some true ->
  first_match re_search rules text = inr (Some corr).
Proof.
  revert i. induction rules as [| [r c] rest IH]; intros i Hi Hbefore Hm.
  - destruct i; discriminate.
  - destruct i as [| i]; simpl in Hi.
    + injection Hi as <- <-. simpl. rewrite Hm. reflexivity.
    + simpl. rewrite (Hbefore 0%nat r c) by (reflexivity || lia).
      apply (IH i Hi); [| exact Hm].
      intros j r' c' Hj Hn. apply (Hbefore (S j) r' c'); [lia | exact Hn].
Qed.

Lemma first_match_none (rules : list correction) (text : string) :
  (forall r c, In (r, c) rules -> re_search r text = Some false) ->
  first_match re_search rules text = inr None.
Proof.
  induction rules as [| [r c] rest IH]; intros H; simpl; [reflexivity |].
  rewrite (H r c) by (left; reflexivity).
  apply IH. intros r' c' Hin. apply (H r' c'). right. exact Hin.
Qed.

Lemma first_match_found (rules : list correction) (text : string) (corr : Z) :
  first_match re_search rules text = inr (Some corr) ->
  exists regex, In (regex, corr) rules.
Proof.
  induction rules as [| [r c] rest IH]; simpl; [discriminate |].
  destruct (re_search r text) as [[|] |]; intros H; try discriminate.
  - injection H as <-. exists r. left. reflexivity.
  - destruct (IH H) as [regex Hin]. exists regex. right. exact Hin.
Qed.

End Scan.

(* ------------------------------------------------------------------ *)


Lemma fix_rotation_no_match (re_search : string -> string -> option bool)
  (rules : list correction) (fp : footprint) :
  (forall r c, In (r, c) rules ->
     re_search r (fp_value fp) = Some false /\
     re_search r (fp_package fp) = Some false) ->
  fix_rotation re_search rules fp = inr (base_rotation fp).
Proof.
  intros H. unfold fix_rotation.
  rewrite (first_match_none re_search rules (fp_value fp))
    by (intros r c Hin; exact (proj1 (H r c Hin))).
  rewrite (first_match_none re_search rules (fp_package fp))
    by (intros r c Hin; exact (proj2 (H r c Hin))).
  reflexivity.
Qed.

(** C3: the rules are scanned in declaration order against the value; the
    first rule matching the value is applied; only when no rule matches the
    value is the package name scanned, in order, the first match applied;
    with no match the mirrored angle is returned; a single offset is
    applied in every case. *)
Theorem fix_rotation_rule_order (re_search : string -> string -> option bool)
  (rules : list correction) (fp : footprint) :
  (forall i regex corr,
     nth_error rules i = Some (regex, corr) ->
     (forall j r c, (j < i)%nat -> nth_error rules j = Some (r, c) ->
                    re_search r (fp_value fp) = Some false) ->
     re_search regex (fp_value fp) = Some true ->
     fix_rotation re_search rules fp = inr (rotate fp (base_rotation fp) corr))
  /\
  (forall i regex corr,
     (forall r c, In (r, c) rules -> re_search r (fp_value fp) = Some false) ->
     nth_error rules i = Some (regex, corr) ->
     (forall j r c, (j < i)%nat -> nth_error rules j = Some (r, c) ->
                    re_search r (fp_package fp) = Some false) ->
     re_search regex (fp_package fp) = Some true ->
     fix_rotation re_search rules fp = inr (rotate fp (base_rotation fp) corr))
  /\
  ((forall r c, In (r, c) rules ->
       re_search r (fp_value fp) = Some false /\
       re_search r (fp_package fp) = Some false) ->
     fix_rotation re_search rules fp = inr (base_rotation fp))
  /\
  (forall q, fix_rotation re_search rules fp = inr q ->
     q = base_rotation fp \/
     exists regex corr, In (regex, corr) rules /\
                        q = rotate fp (base_rotation fp) corr).
Proof.
  unfold fix_rotation. split; [| split; [| split]].
  - intros i regex corr Hi Hb Hm.
    rewrite (first_match_nth re_search rules _ i regex corr Hi Hb Hm).
    reflexivity.
  - intros i regex corr Hv Hi Hb Hm.
    rewrite (first_match_none re_search rules _ Hv).
    rewrite (first_match_nth re_search rules _ i regex corr Hi Hb Hm).
    reflexivity.
  - apply fix_rotation_no_match.
  - intros q.
    destruct (first_match re_search rules (fp_value fp)) as [e | [c |]] eqn:Ev;
      [discriminate | |].
    + intros H. injection H as <-. right.
      destruct (first_match_found re_search rules _ c Ev) as [regex Hin].
      exists regex, c. split; [exact Hin | reflexivity].
    + destruct (first_match re_search rules (fp_package fp)) as [e | [c |]] eqn:Ep;
        intros H; [discriminate | |].
      * injection H as <-. right.
        destruct (first_match_found re_search rules _ c Ep) as [regex Hin].
        exists regex, c. split; [exact Hin | reflexivity].
      * injection H as <-. left. reflexivity.
Qed.

Lemma fix_rotation_rule_order_witness :
  (fix_rotation re_search_lit
     [("BC8"%string, 90%Z); ("BC847"%string, 270%Z); ("SOT"%string, 180%Z)]
     fp_sot23_bottom
   = inr (rotate fp_sot23_bottom (base_rotation fp_sot23_bottom) 90))
  /\
  (fix_rotation re_search_lit [("XYZ"%string, 10%Z); ("SOT"%string, 180%Z)]
     fp_sot23_bottom
   = inr (rotate fp_sot23_bottom (base_rotation fp_sot23_bottom) 180)).
Proof.
  split.
  - apply (proj1 (fix_rotation_rule_order re_search_lit _ fp_sot23_bottom)
             0%nat "BC8"%string 90%Z).
    + reflexivity.
    + intros j r c Hj. lia.
    + vm_compute. reflexivity.
  - apply (proj1 (proj2 (fix_rotation_rule_order re_search_lit _ fp_sot23_bottom))
             1%nat "SOT"%string 180%Z).
    + intros r c [H | [H | []]]; injection H as <- <-; vm_compute; reflexivity.
    + reflexivity.
    + intros j r c Hj Hn. destruct j as [| j]; [| lia].
      injection Hn as <- <-. vm_compute. reflexivity.
    + vm_compute. reflexivity.
Defined.

(** C4: a bottom-side part with a raw rotation of 45 degrees whose package
    name (and not its value) matches a rule of offset 180 is placed at
    315 degrees: mirrored to [(180 - 45) % 360 = 135], then corrected to
    [(135 - 180) % 360 = 315]. *)
Theorem fix_rotation_bottom_scenario
  (re_search : string -> string -> option bool) (rules : list correction)
  (fp : footprint) :
  fp_layer fp <> 0%Z ->
  orientation_degrees (fp_orientation fp) == 45 ->
  first_match re_search rules (fp_value fp) = inr None ->
  first_match re_search rules (fp_package fp) = inr (Some 180%Z) ->
  exists q, fix_rotation re_search rules fp = inr q /\ q == 315.
Proof.
  intros Hl Hr Hv Hp. unfold fix_rotation. rewrite Hv, Hp.
  eexists. split; [reflexivity |].
  unfold rotate, base_rotation.
  apply Z.eqb_neq in Hl. rewrite Hl. simpl negb. cbv iota.
  rewrite Hr. reflexivity.
Qed.

Lemma fix_rotation_bottom_scenario_witness :
  (fp_layer fp_sot23_bottom <> 0%Z /\
   orientation_degrees (fp_orientation fp_sot23_bottom) == 45 /\
   first_match re_search_lit sot23_rules (fp_value fp_sot23_bottom) = inr None /\
   first_match re_search_lit sot23_rules (fp_package fp_sot23_bottom)
   = inr (Some 180%Z)) /\
  exists q, fix_rotation re_search_lit sot23_rules fp_sot23_bottom = inr q
            /\ q == 315.
Proof.
  assert (H1 : fp_layer fp_sot23_bottom <> 0%Z) by discriminate.
  assert (H2 : orientation_degrees (fp_orientation fp_sot23_bottom) == 45)
    by reflexivity.
  assert (H3 : first_match re_search_lit sot23_rules (fp_value fp_sot23_bottom)
               = inr None) by (vm_compute; reflexivity).
  assert (H4 : first_match re_search_lit sot23_rules (fp_package fp_sot23_bottom)
               = inr (Some 180%Z)) by (vm_compute; reflexivity).
  split; [repeat split; assumption |].
  exact (fix_rotation_bottom_scenario re_search_lit sot23_rules
           fp_sot23_bottom H1 H2 H3 H4).
Defined.




(** C6: [rotate] is side-sensitive: in Python float arithmetic it computes
    [(rotation + d) % 360] on the top side and [(rotation - d) % 360] on
    the bottom side, so rotation 0 with [d = 90] gives 90 on top and 270 on
    the bottom; and a top correction followed by the same bottom
    correction is not in general the identity: for the float [0.1] and
    [d = 90] it gives [0.09999999999999432]. *)
Theorem rotate_sides (fpt fpb : footprint) (r : Q) (d : Z) :
  fp_layer fpt = 0%Z -> fp_layer fpb <> 0%Z ->
  Float64.rotate fpt r d = float_rem (fadd r (float_of_int d)) 360 /\
  Float64.rotate fpb r d = float_rem (fsub r (float_of_int d)) 360 /\
  Float64.rotate fpt 0 90 == 90 /\
  Float64.rotate fpb 0 90 == 270 /\
  (exists r0, round64 r0 == r0 /\ 0 <= r0 < 360 /\
     ~ Float64.rotate fpb (Float64.rotate fpt r0 90) 90 == r0).
Proof.
  intros Ht Hb. apply Z.eqb_neq in Hb.
  assert (Ht' : (fp_layer fpt =? 0)%Z = true) by (rewrite Ht; reflexivity).
  unfold Float64.rotate. rewrite Ht', Hb.
  split; [reflexivity |]. split; [reflexivity |].
  split; [vm_compute; reflexivity |]. split; [vm_compute; reflexivity |].
  exists (3602879701896397 # 36028797018963968).
  split; [vm_compute; reflexivity |].
  split; [split; vm_compute; congruence |].
  vm_compute. discriminate.
Qed.

Lemma rotate_sides_witness :
  Float64.rotate fp_top 0 90 == 90 /\ Float64.rotate fp_bottom 0 90 == 270.
Proof.
  destruct (rotate_sides fp_top fp_bottom 45 180 eq_refl ltac:(discriminate))
    as [_ [_ [H1 [H2 _]]]].
  split; [exact H1 | exact H2].
Defined.

(** C10: on the top side, when no rule matches the value or the package
    name, [fix_rotation] returns the orientation read from the footprint
    as it is, with no reduction modulo 360. *)
Theorem fix_rotation_top_unmatched
  (re_search : string -> string -> option bool) (rules : list correction)
  (fp : footprint) :
  fp_layer fp = 0%Z ->
  (forall r c, In (r, c) rules ->
     re_search r (fp_value fp) = Some false /\
     re_search r (fp_package fp) = Some false) ->
  fix_rotation re_search rules fp = inr (orientation_degrees (fp_orientation fp)).
Proof.
  intros Hl H. rewrite (fix_rotation_no_match re_search rules fp H).
  unfold base_rotation. rewrite Hl. reflexivity.
Qed.

Lemma fix_rotation_top_unmatched_witness :
  fix_rotation re_search_lit sot23_rules fp_r_top_neg = inr (-90) /\
  option_map rotation_column
    (fs_lookup (fst (generate_cpl re_search_lit
                       (env_one fp_r_top_neg sot23_rules (Some "C25804"%string) None) []))
       (cpl_path (env_one fp_r_top_neg sot23_rules (Some "C25804"%string) None)))
  = Some [None; Some (-90)].
Proof.
  split.
  - apply (fix_rotation_top_unmatched re_search_lit sot23_rules fp_r_top_neg).
    + reflexivity.
    + intros r c [H | []]. injection H as <- <-.
      split; vm_compute; reflexivity.
  - vm_compute. reflexivity.
Defined.

(* ------------------------------------------------------------------ *)
(** ** The plot plan *)

(** C7: the plan for one copper layer is the top sequence with the edge
    cuts and v-score entries (6 entries), for two layers the top and full
    bottom sequences (10 entries), and for [n > 2] layers the top
    sequence, one inner entry per index [1 .. n-2] in ascending order with
    the index as layer id, and the full bottom sequence ([n + 8] entries;
    12 for four layers, with inner entries [CuIn1] and [CuIn2]). *)
Theorem plot_plan_shape :
  plot_plan 1 = plot_plan_top ++
                [("EdgeCuts", Edge_Cuts, "Edges"); ("VScore", Cmts_User, "V score cut")]%string
  /\ length (plot_plan 1) = 6%nat
  /\ plot_plan 2 = plot_plan_top ++ plot_plan_bottom
  /\ length (plot_plan 2) = 10%nat
  /\ (forall n, (2 < n)%nat ->
        exists inner,
          plot_plan n = plot_plan_top ++ inner ++ plot_plan_bottom /\
          map pl_layer inner = map Z.of_nat (seq 1 (n - 2)) /\
          length (plot_plan n) = (n + 8)%nat)
  /\ length (plot_plan 4) = 12%nat
  /\ map (fun li => (pl_name li, pl_layer li)) (firstn 2 (skipn 4 (plot_plan 4)))
     = [("CuIn1", 1%Z); ("CuIn2", 2%Z)]%string.
Proof.
  split; [reflexivity |]. split; [reflexivity |].
  split; [reflexivity |]. split; [reflexivity |].
  split; [| split; reflexivity].
  intros n Hn. exists (map inner_layer (seq 1 (n - 2))).
  assert (E : plot_plan n
              = plot_plan_top ++ map inner_layer (seq 1 (n - 2)) ++ plot_plan_bottom).
  { unfold plot_plan.
    destruct (Nat.eqb_spec n 1) as [-> | _]; [lia |].
    destruct (Nat.eqb_spec n 2) as [-> | _]; [lia |].
    reflexivity. }
  split; [exact E |]. split.
  - rewrite map_map. reflexivity.
  - rewrite E, !length_app, length_map, length_seq.
    change (length plot_plan_top) with 4%nat.
    change (length plot_plan_bottom) with 6%nat. lia.
Qed.

Lemma plot_plan_shape_witness :
  length (plot_plan 6) = 14%nat /\
  exists inner, plot_plan 6 = plot_plan_top ++ inner ++ plot_plan_bottom /\
                map pl_layer inner = [1; 2; 3; 4]%Z.
Proof.
  destruct (proj1 (proj2 (proj2 (proj2 (proj2 plot_plan_shape)))) 6%nat
              ltac:(lia)) as [inner [E [L Len]]].
  split; [exact Len |]. exists inner. split; [exact E | exact L].
Defined.

(** C2 as stated fails: for a two-layer board the top silkscreen entry
    comes before the bottom copper entry in the plan, yet its NPTH flag is
    false (its layer id [F_SilkS = 37] exceeds [B_Cu = 31]). *)
Lemma plot_calls_skip_npth_counterexample :
  nth_error (map (fun c => (pl_name (snd c), fst c)) (plot_calls 2)) 1
  = Some ("SilkTop"%string, false) /\
  nth_error (map (fun c => (pl_name (snd c), fst c)) (plot_calls 2)) 4
  = Some ("CuBottom"%string, true).
Proof.
  split; reflexivity.
Qed.

Lemma skip_npth_inner (k start : nat) :
  (1 <= start)%nat -> (start + k <= 32)%nat ->
  map (fun l => skip_npth (inner_layer l)) (seq start k) = repeat true k.
Proof.
  revert start. induction k as [| k IH]; intros start H1 H2; [reflexivity |].
  simpl. f_equal.
  - unfold skip_npth, inner_layer, pl_layer, B_Cu. simpl.
    apply Z.leb_le. lia.
  - apply IH; lia.
Qed.

(** C2 (amended): the NPTH flag is [layer id <= B_Cu], which holds exactly
    on the copper entries: top copper, every inner copper entry (for the
    copper counts KiCad supports, inner ids up to 31) and bottom copper;
    it is false on silkscreen, mask, paste, edge cuts and v-score. *)
Theorem plot_calls_skip_npth :
  map fst (plot_calls 1) = [true; false; false; false; false; false] /\
  map fst (plot_calls 2)
  = [true; false; false; false; true; false; false; false; false; false] /\
  (forall n, (3 <= n <= 33)%nat ->
     map fst (plot_calls n)
     = [true; false; false; false] ++ repeat true (n - 2) ++
       [true; false; false; false; false; false]).
Proof.
  split; [reflexivity |]. split; [reflexivity |].
  intros n Hn. unfold plot_calls, plot_plan.
  destruct (Nat.eqb_spec n 1) as [-> | _]; [lia |].
  destruct (Nat.eqb_spec n 2) as [-> | _]; [lia |].
  rewrite map_map, !map_app. simpl fst.
  rewrite map_map, skip_npth_inner by lia.
  reflexivity.
Qed.

Lemma plot_calls_skip_npth_witness :
  map fst (plot_calls 4)
  = [true; false; false; false; true; true; true; false; false; false; false; false].
Proof.
  exact (proj2 (proj2 plot_calls_skip_npth) 4%nat ltac:(lia)).
Defined.

(* ------------------------------------------------------------------ *)
(** ** Placement coordinates *)

(** C8: the coordinates of a placement row are [x = raw_x - origin_x] and
    [y = -(raw_y - origin_y)] in millimetres, exactly, where the raw point
    is the footprint's position for a surface-mount footprint and the
    centre of its bounding box otherwise; origin (10, 10) mm and a raw
    position (15, 20) mm give (5, -10). *)
Theorem cpl_xy_projection :
  (forall (origin : Z * Z) (fp : footprint),
     let raw := if fp_smd fp then fp_position fp else fp_bbox_center fp in
     fst (cpl_xy origin fp) == ToMM (fst raw) - ToMM (fst origin) /\
     snd (cpl_xy origin fp) == - (ToMM (snd raw) - ToMM (snd origin)))
  /\
  (forall env p fp rot,
     row_x (cpl_row_of env p fp rot) = fst (cpl_xy (env_aux_origin env) fp) /\
     row_y (cpl_row_of env p fp rot) = snd (cpl_xy (env_aux_origin env) fp))
  /\
  fst (cpl_xy (mm 10, mm 10) fp_r_top_neg) == 5 /\
  snd (cpl_xy (mm 10, mm 10) fp_r_top_neg) == -10.
Proof.
  split; [| split; [| split; reflexivity]].
  - intros origin fp. cbv zeta.
    unfold cpl_xy, get_position, get_smd, ToMM. simpl fst. simpl snd.
    destruct (fp_smd fp); rewrite !inject_Z_sub; split; field; discriminate.
  - intros env p fp rot. split; reflexivity.
Qed.

(* ------------------------------------------------------------------ *)
(** ** The CPL export run *)

Lemma fs_lookup_set (s : fs) (path : string) (c : list line) :
  fs_lookup (fs_set s path c) path = Some c.
Proof.
  induction s as [| [p c0] rest IH]; simpl.
  - rewrite String.eqb_refl. reflexivity.
  - destruct (String.eqb p path) eqn:E; simpl; rewrite E; [reflexivity | exact IH].
Qed.

Lemma writerow_lookup (path : string) (l : line) (s : fs) (c : list line) :
  fs_lookup s path = Some c ->
  fst (writerow path l s) = fs_set s path (c ++ [l]) /\
  snd (writerow path l s) = inr tt.
Proof. intros H. unfold writerow. rewrite H. split; reflexivity. Qed.

(** A property of the files kept by every step of a loop is kept by the
    loop, whether it ends normally or by an exception. *)
Lemma for_each_inv {A} (P : fs -> Prop) (l : list A) (body : A -> M unit) :
  (forall x s, P s -> P (fst (body x s))) ->
  forall s, P s -> P (fst (for_each l body s)).
Proof.
  intros Hb. induction l as [| x rest IH]; intros s Hs; simpl; [exact Hs |].
  unfold bind. specialize (Hb x s Hs).
  destruct (body x s) as [s' [e | u]]; simpl in *; [exact Hb | apply IH; exact Hb].
Qed.

Section CplRun.

Variable re_search : string -> string -> option bool.
Variable env : cpl_env.



Lemma cpl_footprint_ok (p : part) (fp : footprint) (s s' : fs) (c : list line) :
  fs_lookup s (cpl_path env) = Some c ->
  cpl_footprint re_search env (env_corrections env) p fp s = (s', inr tt) ->
  exists rows, fs_lookup s' (cpl_path env) = Some (c ++ map Row rows) /\
               Forall2 (row_for re_search env) (placement_pair env p fp) rows.
Proof.
  intros Hs Hrun. unfold cpl_footprint, placement_pair in *.
  destruct (get_exclude_from_pos fp).
  { injection Hrun as <-. exists []. rewrite app_nil_r. split; [exact Hs | constructor]. }
  rewrite andb_comm.
  destruct (negb (add_without_lcsc env) && negb (truthy (pt_lcsc p))).
  { injection Hrun as <-. exists []. rewrite app_nil_r. split; [exact Hs | constructor]. }
  unfold bind, lift in Hrun.
  destruct (fix_rotation re_search (env_corrections env) fp) as [e | rot] eqn:Er;
    [discriminate |].
  destruct (writerow_lookup (cpl_path env) (Row (cpl_row_of env p fp rot)) s _ Hs)
    as [E _].
  rewrite Hrun in E. simpl in E. subst s'.
  exists [cpl_row_of env p fp rot]. split.
  - rewrite fs_lookup_set. reflexivity.
  - constructor; [| constructor]. exists rot. split; [exact Er | reflexivity].
Qed.

Lemma for_each_ok {A B} (l : list A) (body : A -> M unit) (f : A -> list B)
  (R : B -> cpl_row -> Prop) :
  (forall x s s' c, fs_lookup s (cpl_path env) = Some c ->
     body x s = (s', inr tt) ->
     exists rows, fs_lookup s' (cpl_path env) = Some (c ++ map Row rows) /\
                  Forall2 R (f x) rows) ->
  forall s s' c, fs_lookup s (cpl_path env) = Some c ->
  for_each l body s = (s', inr tt) ->
  exists rows, fs_lookup s' (cpl_path env) = Some (c ++ map Row rows) /\
               Forall2 R (flat_map f l) rows.
Proof.
  intros Hb. induction l as [| x rest IH]; intros s s' c Hs Hrun; simpl in *.
  - injection Hrun as <-. exists []. rewrite app_nil_r. split; [exact Hs | constructor].
  - unfold bind in Hrun.
    destruct (body x s) as [s1 [e | []]] eqn:E1; [discriminate |].
    destruct (Hb x s s1 c Hs E1) as [rows1 [H1 F1]].
    destruct (IH s1 s' _ H1 Hrun) as [rows2 [H2 F2]].
    exists (rows1 ++ rows2). rewrite map_app, app_assoc. split; [exact H2 |].
    apply Forall2_app; assumption.
Qed.

End CplRun.

Lemma generate_cpl_unfold (re_search : string -> string -> option bool)
  (env : cpl_env) (s0 : fs) :
  generate_cpl re_search env s0
  = for_each (env_pos_parts env) (fun p =>
      for_each (get_footprint_by_ref (env_board env) (pt_reference p))
        (cpl_footprint re_search env (env_corrections env) p))
      (fs_set (fs_set s0 (cpl_path env) []) (cpl_path env) [Header]).
Proof.
  unfold generate_cpl, bind at 1, open_w at 1. cbv beta iota.
  unfold bind at 1, writerow at 1. rewrite fs_lookup_set. reflexivity.
Qed.

(** C9: when the CPL export completes, its file holds the header and then
    exactly one row per [(part, footprint)] pair of [placement_pairs]
    (footprints with the part's reference, excluded footprints skipped,
    parts without an LCSC number skipped unless [lcsc_bom_pos]), in order,
    each with the coordinates and rotation of its footprint; an unset
    [lcsc_bom_pos] counts as true. *)
Theorem generate_cpl_rows :
  (forall env, env_lcsc_bom_pos env = None -> add_without_lcsc env = true) /\
  (forall (re_search : string -> string -> option bool) env s0 s,
     generate_cpl re_search env s0 = (s, inr tt) ->
     exists rows,
       fs_lookup s (cpl_path env) = Some (Header :: map Row rows) /\
       Forall2 (row_for re_search env) (placement_pairs env) rows).
Proof.
  split.
  - intros env H. unfold add_without_lcsc. rewrite H. reflexivity.
  - intros re_search env s0 s Hrun. rewrite generate_cpl_unfold in Hrun.
    assert (Hinner : forall p s1 s2 c,
               fs_lookup s1 (cpl_path env) = Some c ->
               for_each (get_footprint_by_ref (env_board env) (pt_reference p))
                 (cpl_footprint re_search env (env_corrections env) p) s1
               = (s2, inr tt) ->
               exists rows, fs_lookup s2 (cpl_path env) = Some (c ++ map Row rows) /\
                 Forall2 (row_for re_search env)
                   (flat_map (placement_pair env p)
                      (get_footprint_by_ref (env_board env) (pt_reference p))) rows).
    { intros p. apply (for_each_ok env). intros fp s3 s4 c' Hs3 Hrun3.
      eapply cpl_footprint_ok; eassumption. }
    destruct (for_each_ok env _ _ _ (row_for re_search env) Hinner _ s [Header]
                (fs_lookup_set _ _ _) Hrun) as [rows [H F]].
    exists rows. split; [exact H | exact F].
Qed.

Lemma generate_cpl_rows_witness :
  exists rows,
    fs_lookup (fst (generate_cpl re_search_lit (env_three (Some false)) []))
      (cpl_path (env_three (Some false)))
    = Some (Header :: map Row rows) /\
    length rows = 2%nat.
Proof.
  destruct (proj2 generate_cpl_rows re_search_lit (env_three (Some false)) []
              (fst (generate_cpl re_search_lit (env_three (Some false)) []))
              ltac:(vm_compute; reflexivity)) as [rows [H F]].
  exists rows. split; [exact H |].
  apply Forall2_length in F. rewrite <- F. vm_compute. reflexivity.
Defined.




(* ================================================================== *)
(** * Further properties of [fabrication.py] *)

(* ------------------------------------------------------------------ *)

Lemma rotate_proper (fp : footprint) (r r' : Q) (c : Z) :
  r == r' -> rotate fp r c == rotate fp r' c.
Proof.
  intros H. unfold rotate.
  destruct (fp_layer fp =? 0)%Z; apply pymod_proper; try reflexivity; rewrite H;
    reflexivity.
Qed.

Lemma first_match_app (re_search : string -> string -> option bool)
  (l r : list correction) (text : string) :
  first_match re_search (l ++ r) text
  = match first_match re_search l text with
    | inr None => first_match re_search r text
    | x => x
    end.
Proof.
  induction l as [| [p c] rest IH]; simpl; [reflexivity |].
  destruct (re_search p text) as [[|] |]; [reflexivity | exact IH | reflexivity].
Qed.

(** The two versions of [GetOrientation()] agree: an angle of [d] degrees
    read through [AsDegrees()] and the same angle as [10 * d] tenths give
    the same result of [fix_rotation] (the same exception, or equal
    angles). *)
Theorem fix_rotation_tenths_agree (re_search : string -> string -> option bool)
  (rules : list correction) (ref val pkg : string) (layer : Z)
  (pos bbox : Z * Z) (smd excl : bool) (d t : Q) :
  t == 10 * d ->
  let fp1 := mkFootprint ref val pkg (EdaAngle d) layer pos bbox smd excl in
  let fp2 := mkFootprint ref val pkg (Tenths t) layer pos bbox smd excl in
  (exists e, fix_rotation re_search rules fp1 = inl e /\
             fix_rotation re_search rules fp2 = inl e) \/
  (exists q1 q2, fix_rotation re_search rules fp1 = inr q1 /\
                 fix_rotation re_search rules fp2 = inr q2 /\ q1 == q2).
Proof.
  intros Ht fp1 fp2.
  assert (Hb : base_rotation fp1 == base_rotation fp2).
  { unfold base_rotation, fp1, fp2; simpl.
    assert (E : d == t / 10) by (rewrite Ht; field).
    destruct (layer =? 0)%Z; simpl; rewrite E; reflexivity. }
  unfold fix_rotation. subst fp1 fp2; simpl fp_value; simpl fp_package.
  destruct (first_match re_search rules val) as [e | [c |]].
  - left. exists e. split; reflexivity.
  - right. do 2 eexists. split; [reflexivity | split; [reflexivity |]].
    etransitivity; [| apply rotate_proper; exact Hb]. reflexivity.
  - destruct (first_match re_search rules pkg) as [e | [c |]].
    + left. exists e. split; reflexivity.
    + right. do 2 eexists. split; [reflexivity | split; [reflexivity |]].
      etransitivity; [| apply rotate_proper; exact Hb]. reflexivity.
    + right. do 2 eexists. split; [reflexivity | split; [reflexivity |]].
      exact Hb.
Qed.

Lemma fix_rotation_tenths_agree_witness :
  (exists q1 q2,
     fix_rotation re_search_lit sot23_rules
       (mkFootprint "Q1" "BC847" "SOT-23" (EdaAngle 45) B_Cu (0, 0)%Z (0, 0)%Z
                    true false) = inr q1 /\
     fix_rotation re_search_lit sot23_rules
       (mkFootprint "Q1" "BC847" "SOT-23" (Tenths 450) B_Cu (0, 0)%Z (0, 0)%Z
                    true false) = inr q2 /\ q1 == q2).
Proof.
  destruct (fix_rotation_tenths_agree re_search_lit sot23_rules "Q1" "BC847"
              "SOT-23" B_Cu (0, 0)%Z (0, 0)%Z true false 45 450
              ltac:(vm_compute; reflexivity)) as [[e [H1 _]] | H].
  - vm_compute in H1. discriminate.
  - exact H.
Defined.



(** Whole-degree angles are computed exactly: for whole numbers [r] and
    [c] below [2^52] in magnitude, [rotate] returns the whole number
    [(r + c) mod 360] on the top side and [(r - c) mod 360] on the bottom
    side, with no rounding; so for a whole angle in [[0, 360)] a top
    correction followed by the same bottom correction gives the angle
    back. *)
Theorem rotate_whole_degrees (fpt fpb : footprint) (r c : Z) :
  fp_layer fpt = 0%Z -> fp_layer fpb <> 0%Z ->
  (Z.abs r < 2 ^ 52)%Z -> (Z.abs c < 2 ^ 52)%Z ->
  Float64.rotate fpt (inject_Z r) c == inject_Z ((r + c) mod 360) /\
  Float64.rotate fpb (inject_Z r) c == inject_Z ((r - c) mod 360) /\
  ((0 <= r < 360)%Z ->
   Float64.rotate fpb (Float64.rotate fpt (inject_Z r) c) c == inject_Z r).
Proof.
  intros Ht Hb Hr Hc. apply Z.eqb_neq in Hb.
  assert (Ht' : (fp_layer fpt =? 0)%Z = true) by (rewrite Ht; reflexivity).
  assert (E1 := float_rotate_int fpt r c Hr Hc). rewrite Ht' in E1.
  assert (E2 := float_rotate_int fpb r c Hr Hc). rewrite Hb in E2.
  split; [exact E1 |]. split; [exact E2 |].
  intros Hr360.
  assert (Hs := Z.mod_pos_bound (r + c) 360 ltac:(lia)).
  rewrite (float_rotate_proper fpb _ _ c E1).
  rewrite float_rotate_int by lia. rewrite Hb.
  rewrite Zminus_mod_idemp_l.
  replace (r + c - c)%Z with r by ring.
  rewrite Z.mod_small by lia. reflexivity.
Qed.

Lemma rotate_whole_degrees_witness :
  Float64.rotate fp_bottom (Float64.rotate fp_top 45 180) 180 == 45.
Proof.
  exact (proj2 (proj2 (rotate_whole_degrees fp_top fp_bottom 45 180 eq_refl
           ltac:(discriminate) ltac:(lia) ltac:(lia))) ltac:(lia)).
Defined.

(** Once a rule matches the value, the rules after it are never looked at
    (their patterns are not even compiled): appending any rules, malformed
    ones included, does not change the result. *)
Theorem fix_rotation_value_match_stops (re_search : string -> string -> option bool)
  (rules rest : list correction) (fp : footprint) (c : Z) :
  first_match re_search rules (fp_value fp) = inr (Some c) ->
  fix_rotation re_search (rules ++ rest) fp = fix_rotation re_search rules fp.
Proof.
  intros H. unfold fix_rotation. rewrite first_match_app, H. reflexivity.
Qed.

Lemma fix_rotation_value_match_stops_witness :
  fix_rotation re_search_lit ([("BC847"%string, 90%Z)] ++ [("("%string, 0%Z)])
    fp_sot23_bottom
  = fix_rotation re_search_lit [("BC847"%string, 90%Z)] fp_sot23_bottom.
Proof.
  apply (fix_rotation_value_match_stops re_search_lit _ _ fp_sot23_bottom 90).
  vm_compute. reflexivity.
Defined.

Lemma first_match_error (re_search : string -> string -> option bool)
  (rules : list correction) (text : string) :
  (forall r c, In (r, c) rules -> re_search r text <> Some true) ->
  (exists r c, In (r, c) rules /\ re_search r text = None) ->
  first_match re_search rules text = inl ReError.
Proof.
  induction rules as [| [p c] rest IH]; intros Hno [r [c' [Hin Hr]]];
    [destruct Hin |].
  simpl. destruct (re_search p text) as [[|] |] eqn:E.
  - exfalso. apply (Hno p c); [left; reflexivity | exact E].
  - apply IH.
    + intros r' c'' Hin'. apply (Hno r' c''). right. exact Hin'.
    + destruct Hin as [Heq | Hin].
      * injection Heq as -> ->. rewrite E in Hr. discriminate.
      * exists r, c'. split; [exact Hin | exact Hr].
  - reflexivity.
Qed.

(** The whole value scan runs before the package scan: when no rule
    matches the value, a malformed pattern anywhere in the rules raises,
    even if an earlier rule would have matched the package name. *)
Theorem fix_rotation_malformed_raises (re_search : string -> string -> option bool)
  (rules : list correction) (fp : footprint) :
  (forall r c, In (r, c) rules -> re_search r (fp_value fp) <> Some true) ->
  (exists r c, In (r, c) rules /\ re_search r (fp_value fp) = None) ->
  fix_rotation re_search rules fp = inl ReError.
Proof.
  intros H1 H2. unfold fix_rotation.
  rewrite (first_match_error re_search rules _ H1 H2). reflexivity.
Qed.

Lemma fix_rotation_malformed_raises_witness :
  fix_rotation re_search_lit [("SOT-23"%string, 180%Z); ("("%string, 0%Z)]
    fp_sot23_bottom = inl ReError.
Proof.
  apply fix_rotation_malformed_raises.
  - intros r c [H | [H | []]]; injection H as <- <-; vm_compute; discriminate.
  - exists "("%string, 0%Z. split; [right; left; reflexivity | vm_compute; reflexivity].
Defined.

(* ------------------------------------------------------------------ *)
(** ** The CPL export and the other files *)

Lemma fs_lookup_set_other (s : fs) (p q : string) (c : list line) :
  p <> q -> fs_lookup (fs_set s p c) q = fs_lookup s q.
Proof.
  intros Hpq. induction s as [| [p' c0] rest IH]; simpl.
  - apply String.eqb_neq in Hpq. rewrite Hpq. reflexivity.
  - destruct (String.eqb p' p) eqn:E; simpl.
    + apply String.eqb_eq in E. subst p'.
      apply String.eqb_neq in Hpq. rewrite Hpq. reflexivity.
    + destruct (String.eqb p' q); [reflexivity | exact IH].
Qed.

(** [generate_cpl] leaves every file other than the CPL file as it was,
    whether it completes or fails. *)
Theorem generate_cpl_other_files (re_search : string -> string -> option bool)
  (env : cpl_env) (s0 : fs) (q : string) :
  q <> cpl_path env ->
  fs_lookup (fst (generate_cpl re_search env s0)) q = fs_lookup s0 q.
Proof.
  intros Hq. rewrite generate_cpl_unfold.
  apply (for_each_inv (fun s => fs_lookup s q = fs_lookup s0 q)).
  - intros p s1 H1. apply (for_each_inv (fun s => fs_lookup s q = fs_lookup s0 q));
      [| exact H1].
    intros fp s2 H2. unfold cpl_footprint.
    destruct (get_exclude_from_pos fp); [exact H2 |].
    destruct (negb (add_without_lcsc env) && negb (truthy (pt_lcsc p)));
      [exact H2 |].
    unfold bind, lift.
    destruct (fix_rotation re_search (env_corrections env) fp) as [e | rot];
      [exact H2 |].
    unfold writerow. simpl fst.
    rewrite fs_lookup_set_other by (intros E; apply Hq; symmetry; exact E).
    exact H2.
  - rewrite !fs_lookup_set_other by (intros E; apply Hq; symmetry; exact E).
    reflexivity.
Qed.

Lemma generate_cpl_other_files_witness :
  fs_lookup (fst (generate_cpl re_search_lit (env_three None)
                    [("jlcpcb/production_files/BOM-board.csv"%string, [Header])]))
    "jlcpcb/production_files/BOM-board.csv"%string
  = Some [Header].
Proof.
  apply (generate_cpl_other_files re_search_lit (env_three None)
           [("jlcpcb/production_files/BOM-board.csv"%string, [Header])]).
  vm_compute. discriminate.
Defined.

Section CplAgree.

Variable re_search : string -> string -> option bool.
Variable env : cpl_env.

Definition agree (s s' : fs) : Prop :=
  fs_lookup s (cpl_path env) = fs_lookup s' (cpl_path env).

Lemma for_each_agree {A} (l : list A) (body : A -> M unit) :
  (forall x s s', agree s s' ->
     agree (fst (body x s)) (fst (body x s')) /\ snd (body x s) = snd (body x s')) ->
  forall s s', agree s s' ->
  agree (fst (for_each l body s)) (fst (for_each l body s')) /\
  snd (for_each l body s) = snd (for_each l body s').
Proof.
  intros Hb. induction l as [| x rest IH]; intros s s' H; simpl;
    [split; [exact H | reflexivity] |].
  unfold bind. destruct (Hb x s s' H) as [H1 H2].
  destruct (body x s) as [s1 r1], (body x s') as [s1' r1']. simpl in *.
  subst r1'. destruct r1 as [e | u]; [split; [exact H1 | reflexivity] |].
  apply IH. exact H1.
Qed.

Lemma cpl_footprint_agree (p : part) (fp : footprint) (s s' : fs) :
  agree s s' ->
  agree (fst (cpl_footprint re_search env (env_corrections env) p fp s))
        (fst (cpl_footprint re_search env (env_corrections env) p fp s')) /\
  snd (cpl_footprint re_search env (env_corrections env) p fp s)
  = snd (cpl_footprint re_search env (env_corrections env) p fp s').
Proof.
  intros H. unfold cpl_footprint.
  destruct (get_exclude_from_pos fp); [split; [exact H | reflexivity] |].
  destruct (negb (add_without_lcsc env) && negb (truthy (pt_lcsc p)));
    [split; [exact H | reflexivity] |].
  unfold bind, lift.
  destruct (fix_rotation re_search (env_corrections env) fp) as [e | rot];
    [split; [exact H | reflexivity] |].
  unfold writerow, agree in *. simpl.
  rewrite !fs_lookup_set, H. split; reflexivity.
Qed.

End CplAgree.

(** The CPL file is rewritten from scratch ([open(..., "w")]): its content
    after [generate_cpl], and whether the run fails, do not depend on what
    the file store held before; in particular a second run gives the same
    CPL file as the first. *)
Theorem generate_cpl_fresh (re_search : string -> string -> option bool)
  (env : cpl_env) (s0 s0' : fs) :
  fs_lookup (fst (generate_cpl re_search env s0)) (cpl_path env)
  = fs_lookup (fst (generate_cpl re_search env s0')) (cpl_path env) /\
  snd (generate_cpl re_search env s0) = snd (generate_cpl re_search env s0') /\
  fs_lookup (fst (generate_cpl re_search env (fst (generate_cpl re_search env s0))))
    (cpl_path env)
  = fs_lookup (fst (generate_cpl re_search env s0)) (cpl_path env).
Proof.
  assert (Hall : forall s1 s2,
    fs_lookup (fst (generate_cpl re_search env s1)) (cpl_path env)
    = fs_lookup (fst (generate_cpl re_search env s2)) (cpl_path env) /\
    snd (generate_cpl re_search env s1) = snd (generate_cpl re_search env s2)).
  { intros s1 s2. rewrite !generate_cpl_unfold.
    apply (for_each_agree env).
    - intros p s s' H. apply (for_each_agree env); [| exact H].
      intros fp t t' Ht. apply cpl_footprint_agree. exact Ht.
    - unfold agree. rewrite !fs_lookup_set. reflexivity. }
  split; [apply Hall |]. split; [apply Hall |]. apply Hall.
Qed.

(* ------------------------------------------------------------------ *)
(** ** The plot plan: layer ids and file names *)

Lemma nodupb_NoDup {A} (eqb : A -> A -> bool) (l : list A) :
  (forall x y, eqb x y = true <-> x = y) ->
  nodupb eqb l = true -> NoDup l.
Proof.
  intros Heq. induction l as [| x rest IH]; simpl; intros H; [constructor |].
  apply andb_prop in H as [H1 H2]. constructor; [| exact (IH H2)].
  intros Hin. apply negb_true_iff in H1.
  assert (existsb (eqb x) rest = true).
  { apply existsb_exists. exists x. split; [exact Hin |]. apply Heq. reflexivity. }
  congruence.
Qed.

Lemma forallb_seq_le (f : nat -> bool) (m : nat) :
  forallb f (seq 0 (S m)) = true -> forall n, (n <= m)%nat -> f n = true.
Proof.
  intros H n Hn. rewrite forallb_forall in H. apply H.
  apply in_seq. lia.
Qed.

(** For every copper layer count KiCad allows (at most 32), the planned
    layers have pairwise distinct layer ids and pairwise distinct file
    names; from 33 copper layers on, the inner layer numbered 31 gets the
    layer id of [B_Cu] and the bottom copper layer is planned twice. *)
Theorem plot_plan_distinct :
  (forall n, (n <= 32)%nat ->
     NoDup (map pl_layer (plot_plan n)) /\ NoDup (map pl_name (plot_plan n))) /\
  (forall n, (33 <= n)%nat -> ~ NoDup (map pl_layer (plot_plan n))).
Proof.
  split.
  - intros n Hn.
    pose proof (forallb_seq_le
                  (fun n => nodupb Z.eqb (map pl_layer (plot_plan n)) &&
                            nodupb String.eqb (map pl_name (plot_plan n))) 32
                  ltac:(vm_compute; reflexivity) n Hn) as H.
    apply andb_prop in H as [H1 H2]. split.
    + apply (nodupb_NoDup Z.eqb); [exact Z.eqb_eq | exact H1].
    + apply (nodupb_NoDup String.eqb); [exact String.eqb_eq | exact H2].
  - intros n Hn Hnd.
    unfold plot_plan in Hnd.
    destruct (Nat.eqb_spec n 1) as [-> | _]; [lia |].
    destruct (Nat.eqb_spec n 2) as [-> | _]; [lia |].
    rewrite !map_app, app_assoc in Hnd.
    change (map pl_layer plot_plan_bottom)
      with (B_Cu :: map pl_layer (tl plot_plan_bottom)) in Hnd.
    apply NoDup_remove_2 in Hnd. apply Hnd. apply in_or_app. left.
    apply in_or_app. right. rewrite map_map. apply in_map_iff.
    exists 31%nat. split; [reflexivity |]. apply in_seq. lia.
Qed.

Lemma plot_plan_distinct_witness :
  NoDup (map pl_layer (plot_plan 32)) /\ ~ NoDup (map pl_layer (plot_plan 33)).
Proof.
  split.
  - exact (proj1 (proj1 plot_plan_distinct 32%nat ltac:(lia))).
  - exact (proj2 plot_plan_distinct 33%nat ltac:(lia)).
Defined.

(* ------------------------------------------------------------------ *)
(** ** The Gerber directory *)

Definition no_dirs (d : list dentry) : Prop :=
  forall n, ~ In (DDir n) d.

Lemma remove_all_files (d : list dentry) :
  no_dirs d -> remove_all d = ([], None).
Proof.
  induction d as [| [n | n] rest IH]; intros H; simpl; [reflexivity | |].
  - apply IH. intros m Hm. apply (H m). right. exact Hm.
  - exfalso. apply (H n). left. reflexivity.
Qed.

Lemma add_file_files (d : list dentry) (name f : string) :
  In (DFile f) (add_file d name) <-> In (DFile f) d \/ f = name.
Proof.
  unfold add_file. destruct (existsb (is_file_named name) d) eqn:E.
  - split; [intros H; left; exact H |].
    intros [H | ->]; [exact H |].
    apply existsb_exists in E as [[n | n] [Hin Hn]]; simpl in Hn; [| discriminate].
    apply String.eqb_eq in Hn. subst n. exact Hin.
  - rewrite in_app_iff. simpl. split.
    + intros [H | [H | []]]; [left; exact H | right; injection H as ->; reflexivity].
    + intros [H | ->]; [left; exact H | right; left; reflexivity].
Qed.

Lemma add_file_no_dirs (d : list dentry) (name : string) :
  no_dirs d -> no_dirs (add_file d name).
Proof.
  unfold add_file, no_dirs. intros H n.
  destruct (existsb (is_file_named name) d); [apply H |].
  rewrite in_app_iff. intros [Hin | [Heq | []]]; [exact (H n Hin) | discriminate].
Qed.

Section GerberProps.

Variable plot_file : plot_layer -> string.
Variable plot_ok : plot_layer -> bool.

Lemma plot_loop_files (plan : list plot_layer) (d : list dentry) (f : string) :
  In (DFile f) (fst (plot_loop plot_file plot_ok plan d)) <->
  In (DFile f) d \/ In f (map plot_file plan).
Proof.
  revert d. induction plan as [| li rest IH]; intros d; simpl.
  - tauto.
  - destruct (plot_loop plot_file plot_ok rest (add_file d (plot_file li)))
      as [d2 logs] eqn:E.
    simpl. specialize (IH (add_file d (plot_file li))). rewrite E in IH.
    simpl in IH. rewrite IH, add_file_files. split.
    + intros [[H | H] | H]; [left; exact H | right; left; symmetry; exact H |
                             right; right; exact H].
    + intros [H | [H | H]]; [left; left; exact H | left; right; symmetry; exact H |
                             right; exact H].
Qed.

Lemma plot_loop_no_dirs (plan : list plot_layer) (d : list dentry) :
  no_dirs d -> no_dirs (fst (plot_loop plot_file plot_ok plan d)).
Proof.
  revert d. induction plan as [| li rest IH]; intros d H; simpl; [exact H |].
  destruct (plot_loop plot_file plot_ok rest (add_file d (plot_file li)))
    as [d2 logs] eqn:E.
  simpl. specialize (IH (add_file d (plot_file li)) (add_file_no_dirs _ _ H)).
  rewrite E in IH. exact IH.
Qed.

(** [generate_geber] on a Gerber directory holding only files: the
    clearing loop removes them all, no exception is raised, and the
    directory afterwards holds exactly the files plotted for the plan, none
    of the files from before; running it again gives the same directory and
    log (the export is idempotent). *)
Theorem generate_geber_fresh (n : nat) (d : list dentry) :
  no_dirs d ->
  generate_geber_dir plot_file plot_ok n d = generate_geber_dir plot_file plot_ok n [] /\
  (forall f, In (DFile f) (fst (fst (generate_geber_dir plot_file plot_ok n d))) <->
             In f (map plot_file (plot_plan n))) /\
  no_dirs (fst (fst (generate_geber_dir plot_file plot_ok n d))) /\
  snd (generate_geber_dir plot_file plot_ok n d) = None /\
  generate_geber_dir plot_file plot_ok n (fst (fst (generate_geber_dir plot_file plot_ok n d)))
  = generate_geber_dir plot_file plot_ok n d.
Proof.
  intros Hd.
  assert (E : generate_geber_dir plot_file plot_ok n d
              = generate_geber_dir plot_file plot_ok n []).
  { unfold generate_geber_dir. rewrite (remove_all_files d Hd). reflexivity. }
  assert (Hnd : no_dirs (fst (fst (generate_geber_dir plot_file plot_ok n d)))).
  { rewrite E. unfold generate_geber_dir. simpl.
    pose proof (plot_loop_no_dirs (plot_plan n) [] ltac:(intros m [])) as H.
    destruct (plot_loop plot_file plot_ok (plot_plan n) []). exact H. }
  split; [exact E |]. split; [| split; [exact Hnd | split]].
  - intros f. rewrite E. unfold generate_geber_dir. simpl.
    pose proof (plot_loop_files (plot_plan n) [] f) as H.
    destruct (plot_loop plot_file plot_ok (plot_plan n) []). simpl in *.
    rewrite H. split; [intros [[] | H'] | intros H'; right]; exact H'.
  - rewrite E. unfold generate_geber_dir. simpl.
    destruct (plot_loop plot_file plot_ok (plot_plan n) []). reflexivity.
  - unfold generate_geber_dir at 1. rewrite (remove_all_files _ Hnd).
    rewrite E. reflexivity.
Qed.

(** A subdirectory in the Gerber directory makes [os.remove] raise: the
    files listed before it are deleted, the subdirectory and everything
    after it stay, and no layer is plotted. *)
Theorem generate_geber_subdir_raises (n : nat) (files rest : list dentry)
  (name : string) :
  no_dirs files ->
  generate_geber_dir plot_file plot_ok n (files ++ DDir name :: rest)
  = (DDir name :: rest, [], Some (IsADirectoryError name)).
Proof.
  intros Hf. unfold generate_geber_dir.
  assert (R : remove_all (files ++ DDir name :: rest)
              = (DDir name :: rest, Some (IsADirectoryError name))).
  { induction files as [| [m | m] fs' IH]; simpl; [reflexivity | |].
    - apply IH. intros k Hk. apply (Hf k). right. exact Hk.
    - exfalso. apply (Hf m). left. reflexivity. }
  rewrite R. reflexivity.
Qed.

Lemma plot_loop_logs (plan : list plot_layer) (d : list dentry) :
  length (filter is_success (snd (plot_loop plot_file plot_ok plan d))) = length plan /\
  (forall li, In li plan ->
     In (PlotSuccess (pl_label li)) (snd (plot_loop plot_file plot_ok plan d)) /\
     (plot_ok li = false ->
      In (PlotError (pl_label li)) (snd (plot_loop plot_file plot_ok plan d)))).
Proof.
  revert d. induction plan as [| li rest IH]; intros d; simpl; [split; [reflexivity | tauto] |].
  destruct (plot_loop plot_file plot_ok rest (add_file d (plot_file li)))
    as [d2 logs] eqn:E.
  specialize (IH (add_file d (plot_file li))). rewrite E in IH. simpl in *.
  destruct IH as [Hlen Hin]. split.
  - rewrite filter_app, length_app, Hlen.
    destruct (plot_ok li); simpl; reflexivity.
  - intros li' [<- | H'].
    + split.
      * apply in_or_app. left. apply in_or_app. right. left. reflexivity.
      * intros Hf. rewrite Hf. simpl. left. reflexivity.
    + destruct (Hin li' H') as [H1 H2]. split.
      * apply in_or_app. right. exact H1.
      * intros Hf. apply in_or_app. right. exact (H2 Hf).
Qed.

End GerberProps.

Lemma generate_geber_fresh_witness :
  generate_geber_dir kicad_plot_file (fun _ => true) 2
    [DFile "board-CuIn1.gbr"; DFile "board-CuIn2.gbr"]%string
  = generate_geber_dir kicad_plot_file (fun _ => true) 2 [].
Proof.
  apply (generate_geber_fresh kicad_plot_file (fun _ => true) 2
           [DFile "board-CuIn1.gbr"; DFile "board-CuIn2.gbr"]%string).
  intros m [H | [H | []]]; discriminate.
Defined.

Lemma generate_geber_subdir_raises_witness :
  generate_geber_dir kicad_plot_file (fun _ => true) 2
    ([DFile "old.gbr"%string] ++ DDir "backup"%string :: [DFile "x.drl"%string])
  = (DDir "backup"%string :: [DFile "x.drl"%string], [],
     Some (IsADirectoryError "backup"%string)).
Proof.
  apply generate_geber_subdir_raises. intros m [H | []]. discriminate.
Defined.

(** Plot failures are not fatal: every planned layer is plotted in turn, a
    layer whose [PlotLayer()] fails is logged as an error, and every layer,
    failed ones included, is then logged as successfully plotted. *)
Theorem generate_geber_logs (plot_file : plot_layer -> string)
  (plot_ok : plot_layer -> bool) (n : nat) (d : list dentry) :
  no_dirs d ->
  let logs := snd (fst (generate_geber_dir plot_file plot_ok n d)) in
  length (filter is_success logs) = length (plot_plan n) /\
  (forall li, In li (plot_plan n) ->
     In (PlotSuccess (pl_label li)) logs /\
     (plot_ok li = false -> In (PlotError (pl_label li)) logs)).
Proof.
  intros Hd. cbv zeta. unfold generate_geber_dir.
  rewrite (remove_all_files d Hd).
  pose proof (plot_loop_logs plot_file plot_ok (plot_plan n) []) as H.
  destruct (plot_loop plot_file plot_ok (plot_plan n) []). exact H.
Qed.

Lemma generate_geber_logs_witness :
  In (PlotError "Silk top"%string)
     (snd (fst (generate_geber_dir kicad_plot_file
                  (fun li => negb (String.eqb (pl_name li) "SilkTop")) 2 []))) /\
  In (PlotSuccess "Silk top"%string)
     (snd (fst (generate_geber_dir kicad_plot_file
                  (fun li => negb (String.eqb (pl_name li) "SilkTop")) 2 []))).
Proof.
  destruct (proj2 (generate_geber_logs kicad_plot_file
                     (fun li => negb (String.eqb (pl_name li) "SilkTop")) 2 []
                     ltac:(intros m [])) ("SilkTop", F_SilkS, "Silk top")%string
              ltac:(right; left; reflexivity)) as [H1 H2].
  split; [exact (H2 ltac:(reflexivity)) | exact H1].
Defined.

Lemma excellon_files (drill_files : list string) (d : list dentry) (f : string) :
  In (DFile f) (generate_excellon_dir drill_files d) <->
  In (DFile f) d \/ In f drill_files.
Proof.
  unfold generate_excellon_dir. revert d.
  induction drill_files as [| x rest IH]; intros d; simpl; [tauto |].
  rewrite IH, add_file_files. split.
  - intros [[H | H] | H]; [left; exact H | right; left; symmetry; exact H |
                           right; right; exact H].
  - intros [H | [H | H]]; [left; left; exact H | left; right; symmetry; exact H |
                           right; exact H].
Qed.

Lemma file_names_in (d : list dentry) (f : string) :
  In f (file_names d) <-> In (DFile f) d.
Proof.
  induction d as [| [m | m] rest IH]; simpl; [tauto | |].
  - rewrite IH. split.
    + intros [-> | H]; [left; reflexivity | right; exact H].
    + intros [H | H]; [injection H as ->; left; reflexivity | right; exact H].
  - rewrite IH. split; [intros H; right; exact H |].
    intros [H | H]; [discriminate | exact H].
Qed.

(** Run in the order [generate_geber], [generate_excellon],
    [zip_gerber_excellon] on a Gerber directory holding only files, the
    archive holds, each under its own name and read from the Gerber
    directory, exactly the plotted layer files and drill files whose names
    end in gbr, drl or pdf; no file left from an earlier run is archived. *)
Theorem gerber_zip_contents (plot_file : plot_layer -> string)
  (plot_ok : plot_layer -> bool) (drill_files : list string)
  (gerberdir : string) (n : nat) (d : list dentry) :
  no_dirs d ->
  let d2 := generate_excellon_dir drill_files
              (fst (fst (generate_geber_dir plot_file plot_ok n d))) in
  forall path f,
    In (path, f) (zip_entries (walk_flat gerberdir d2)) <->
    path = (gerberdir ++ "/" ++ f)%string /\ zip_ext f = true /\
    (In f (map plot_file (plot_plan n)) \/ In f drill_files).
Proof.
  intros Hd d2 path f.
  pose proof (proj1 (proj2 (generate_geber_fresh plot_file plot_ok n d Hd))) as Hg.
  unfold zip_entries, walk_flat. simpl. rewrite app_nil_r, in_map_iff.
  split.
  - intros [x [Hx Hin]]. injection Hx as <- <-.
    apply filter_In in Hin as [Hin Hext].
    apply file_names_in in Hin. unfold d2 in Hin.
    apply excellon_files in Hin as [Hin | Hin].
    + split; [reflexivity | split; [exact Hext | left; apply Hg; exact Hin]].
    + split; [reflexivity | split; [exact Hext | right; exact Hin]].
  - intros [-> [Hext Hin]]. exists f. split; [reflexivity |].
    apply filter_In. split; [| exact Hext].
    apply file_names_in. unfold d2. apply excellon_files.
    destruct Hin as [Hin | Hin]; [left; apply Hg; exact Hin | right; exact Hin].
Qed.

Lemma gerber_zip_contents_witness :
  In ("jlcpcb/gerber/board-CuTop.gbr"%string, "board-CuTop.gbr"%string)
     (zip_entries (walk_flat "jlcpcb/gerber"
        (generate_excellon_dir kicad_drill_files
           (fst (fst (generate_geber_dir kicad_plot_file (fun _ => true) 2
                        [DFile "board-CuIn1.gbr"%string])))))) /\
  ~ In ("jlcpcb/gerber/board-CuIn1.gbr"%string, "board-CuIn1.gbr"%string)
     (zip_entries (walk_flat "jlcpcb/gerber"
        (generate_excellon_dir kicad_drill_files
           (fst (fst (generate_geber_dir kicad_plot_file (fun _ => true) 2
                        [DFile "board-CuIn1.gbr"%string])))))).
Proof.
  pose proof (gerber_zip_contents kicad_plot_file (fun _ => true) kicad_drill_files
                "jlcpcb/gerber" 2 [DFile "board-CuIn1.gbr"%string]
                ltac:(intros m [H | []]; discriminate)) as H.
  cbv zeta in H. split.
  - apply H. split; [reflexivity | split; [reflexivity |]].
    left. left. reflexivity.
  - intros Hin. apply H in Hin as [_ [_ [Hp | Hp]]]; vm_compute in Hp;
      repeat (destruct Hp as [Hp | Hp]; [discriminate |]); exact Hp.
Defined.
